(** * NHANES biomarker explorer: join, filters, group statistics, comparison

    A shallow embedding of the two Shiny applications of the repository,
    [apptest.py] (one biomarker, age filter, text summary) and
    [ShinyApp/apptest.py] (two biomarkers, regression plot), and the
    properties of the join / filter / statistics pipeline they implement.

    Conventions of the embedding.
    - A pandas column of integers is a field of type [Z]; a column of
      float64 measurements is a field of type [option R], [None] being NaN
      (a missing measurement).
    - The structural columns of a table (SEQN, RIAGENDR, RIDAGEYR,
      id_client) are fields of its rows; the measurement and label columns
      are listed by name and read by name.  The embedding follows the code
      on requests whose column names are pairwise distinct
      ([distinct_columns]): a request that selects a structural column as
      its biomarker or label makes pandas select a column twice, suffix or
      merge column names, and is outside of it.
    - A numpy / pandas scalar is an [npfloat]: a real number, one of the two
      infinities, or NaN.  Arithmetic on finite values is exact: rounding
      and overflow are not modelled, the propagation of NaN and of division
      by zero is.  The properties stated about the statistics are those
      that hold of float64 arithmetic as well: comparisons, signs, NaN.
    - A Python function either returns or raises: [outcome].
    - The drawing calls of matplotlib / seaborn are the effect of the plot
      functions; a plot function returns the list of calls it made. *)

From Stdlib Require Import ZArith List String Ascii Bool Lia Reals Lra.
From Stdlib Require Import Permutation.
Import ListNotations.

Local Open Scope string_scope.
Local Open Scope Z_scope.

(** ** Python outcomes *)

Inductive exn : Type :=
| KeyError (key : string)
| KeyError_not_in_index (missing : list string)
| ValueError (msg : string).

Inductive outcome (A : Type) : Type :=
| Returned (a : A)
| Raised (e : exn).

Arguments Returned {A} a.
Arguments Raised {A} e.

Definition bind {A B : Type} (m : outcome A) (k : A -> outcome B) : outcome B :=
  match m with
  | Returned a => k a
  | Raised e => Raised e
  end.

Notation "x <- m ;; k" := (bind m (fun x => k))
  (at level 61, m at next level, right associativity).

(** ** The source tables *)

(** A row of [nhanes_biomarkers].  The structural columns are fields; the
    measurement columns (those a request selects) are read through
    [markers]. *)
Record BiomarkerRow : Type := {
  SEQN : Z;
  RIAGENDR : Z;
  RIDAGEYR : Z;
  markers : string -> option R
}.

Record BiomarkerTable : Type := {
  bm_columns : list string;
  bm_rows : list BiomarkerRow
}.

(** A row of [nhanes_labels]. *)
Record LabelRow : Type := {
  id_client : Z;
  labels : string -> Z
}.

Record LabelTable : Type := {
  lb_columns : list string;
  lb_rows : list LabelRow
}.

Definition has_column (cols : list string) (name : string) : bool :=
  if in_dec string_dec name cols then true else false.

(** [df[[..., name, ...]]]: when some of the selected columns are absent,
    pandas raises one [KeyError] whose message lists every absent label,
    once each and in the order of the selection, followed by "not in
    index". *)
Definition require_columns (cols names : list string) : outcome unit :=
  match nodup string_dec (filter (fun name => negb (has_column cols name)) names) with
  | [] => Returned tt
  | missing => Raised (KeyError_not_in_index missing)
  end.

(** ** The joined cohort *)

(** A row of [merged_data] after the renaming of its columns. *)
Record MergedRow : Type := {
  m_SEQN : Z;
  BiomarkerX : option R;
  Gender : Z;
  m_id_client : Z;
  HeartDisease : Z
}.

(** A row of [merged_data] in [kde_plot] of [apptest.py], which also
    projects the age column. *)
Record MergedRowAge : Type := {
  row : MergedRow;
  m_RIDAGEYR : Z
}.

(** A row of [merged_data] in [regression_plot]. *)
Record MergedRowXY : Type := {
  xy_row : MergedRow;
  BiomarkerY : option R
}.

(** [pd.merge(left, right, left_on=..., right_on=...)]: the inner join; the
    rows follow the order of the left table, each with its matches in the
    order of the right table. *)
Definition pd_merge {A B C : Type} (lkey : A -> Z) (rkey : B -> Z)
    (mk : A -> B -> C) (left : list A) (right : list B) : list C :=
  flat_map (fun l => map (mk l) (filter (fun r => rkey r =? lkey l) right)) left.

(** The joined row of a biomarker row and a label row, its columns renamed
    to "Biomarker X", "Gender" and "Heart Disease" (each column has
    its own name when the names of the request are pairwise distinct). *)
Definition mk_merged (x label : string) (b : BiomarkerRow) (l : LabelRow) : MergedRow :=
  {| m_SEQN := SEQN b;
     BiomarkerX := markers b x;
     Gender := RIAGENDR b;
     m_id_client := id_client l;
     HeartDisease := labels l label |}.

Definition mk_merged_age (x label : string) (b : BiomarkerRow) (l : LabelRow) : MergedRowAge :=
  {| row := mk_merged x label b l; m_RIDAGEYR := RIDAGEYR b |}.

Definition mk_merged_xy (x y label : string) (b : BiomarkerRow) (l : LabelRow) : MergedRowXY :=
  {| xy_row := mk_merged x label b l; BiomarkerY := markers b y |}.

(** The merge of [summary_stats] and of [kde_plot] in [ShinyApp/apptest.py]:
    columns SEQN, the biomarker and RIAGENDR against id_client and the
    label.  The structural columns are fields of the rows, so only the
    selected biomarker and label can be absent; the biomarker frame is
    selected first. *)
Definition merge_data (bm : BiomarkerTable) (lb : LabelTable)
    (selected_biomarker_x selected_label : string) : outcome (list MergedRow) :=
  _ <- require_columns (bm_columns bm) [selected_biomarker_x] ;;
  _ <- require_columns (lb_columns lb) [selected_label] ;;
  Returned (pd_merge SEQN id_client (mk_merged selected_biomarker_x selected_label)
              (bm_rows bm) (lb_rows lb)).

(** The merge of [kde_plot] in [apptest.py]: RIDAGEYR is projected too. *)
Definition merge_data_age (bm : BiomarkerTable) (lb : LabelTable)
    (selected_biomarker_x selected_label : string) : outcome (list MergedRowAge) :=
  _ <- require_columns (bm_columns bm) [selected_biomarker_x] ;;
  _ <- require_columns (lb_columns lb) [selected_label] ;;
  Returned (pd_merge SEQN id_client (mk_merged_age selected_biomarker_x selected_label)
              (bm_rows bm) (lb_rows lb)).

(** The merge of [regression_plot]. *)
Definition merge_data_xy (bm : BiomarkerTable) (lb : LabelTable)
    (selected_biomarker_x selected_biomarker_y selected_label : string)
    : outcome (list MergedRowXY) :=
  _ <- require_columns (bm_columns bm) [selected_biomarker_x; selected_biomarker_y] ;;
  _ <- require_columns (lb_columns lb) [selected_label] ;;
  Returned (pd_merge SEQN id_client
              (mk_merged_xy selected_biomarker_x selected_biomarker_y selected_label)
              (bm_rows bm) (lb_rows lb)).

(** ** The filters *)

(** [merged_data[merged_data["Heart Disease"] == 1]] when the box is
    ticked. *)
Definition disease_filter {A : Type} (get : A -> MergedRow)
    (filter_heart_disease : bool) (merged_data : list A) : list A :=
  if filter_heart_disease
  then filter (fun r => HeartDisease (get r) =? 1) merged_data
  else merged_data.

(** [if gender_filter == "Male": ... elif gender_filter == "Female": ...]. *)
Definition gender_filter_step {A : Type} (get : A -> MergedRow)
    (gender_filter : string) (merged_data : list A) : list A :=
  if string_dec gender_filter "Male"
  then filter (fun r => Gender (get r) =? 1) merged_data
  else if string_dec gender_filter "Female"
  then filter (fun r => Gender (get r) =? 2) merged_data
  else merged_data.

(** [str.replace(old, new)] for a non-empty [old]: the occurrences are
    replaced from the left, without overlap.  [skip] counts the characters
    of a replaced occurrence that are still to be dropped. *)
Fixpoint replace_from (old new : string) (skip : nat) (s : string) : string :=
  match s with
  | EmptyString => EmptyString
  | String c s' =>
      match skip with
      | S k => replace_from old new k s'
      | O =>
          if String.prefix old s
          then new ++ replace_from old new (String.length old - 1) s'
          else String c (replace_from old new 0 s')
      end
  end.

Definition replace (old new s : string) : string := replace_from old new 0 s.

Definition age_bounds : list (string * (Z * Z)) :=
  [ ("20-30", (20, 30));
    ("30-40", (30, 40));
    ("40-50", (40, 50));
    ("50-60", (50, 60));
    ("60-70", (60, 70));
    ("70-80", (70, 80)) ].

Fixpoint dict_get {V : Type} (d : list (string * V)) (k : string) : outcome V :=
  match d with
  | [] => Raised (KeyError k)
  | (k', v) :: d' => if string_dec k' k then Returned v else dict_get d' k
  end.

(** The entries of the age selector of the user interface. *)
Definition age_group_choices : list string :=
  [ "All Ages"; "20–30"; "30–40"; "40–50"; "50–60"; "60–70"; "70–80" ].

Definition in_age_range (low high : Z) (r : MergedRowAge) : bool :=
  (low <=? m_RIDAGEYR r) && (m_RIDAGEYR r <? high).

(** The age step of [kde_plot]: the en dash of the selector entry becomes a
    hyphen, and unless the entry is "All Ages" its bounds are looked up
    and the rows with [low <= RIDAGEYR < high] are kept. *)
Definition age_filter_step (age_group_filter : string)
    (merged_data : list MergedRowAge) : outcome (list MergedRowAge) :=
  let age_filter := replace "–" "-" age_group_filter in
  if string_dec age_filter "All Ages"
  then Returned merged_data
  else
    bounds <- dict_get age_bounds age_filter ;;
    let '(low, high) := bounds in
    Returned (filter (in_age_range low high) merged_data).

(** ** numpy scalars *)

Inductive npfloat : Type :=
| Fin (r : R)
| PInf
| NInf
| NaN.

Definition np_neg (a : npfloat) : npfloat :=
  match a with
  | Fin x => Fin (- x)
  | PInf => NInf
  | NInf => PInf
  | NaN => NaN
  end.

Definition np_add (a b : npfloat) : npfloat :=
  match a, b with
  | NaN, _ | _, NaN => NaN
  | PInf, NInf | NInf, PInf => NaN
  | PInf, _ | _, PInf => PInf
  | NInf, _ | _, NInf => NInf
  | Fin x, Fin y => Fin (x + y)
  end.

Definition np_sub (a b : npfloat) : npfloat := np_add a (np_neg b).

(** An infinity with the sign of [x]; [inf * 0] is NaN. *)
Definition signed_inf (positive : bool) (x : R) : npfloat :=
  if Req_dec_T x 0 then NaN
  else if Rlt_dec 0 x
       then (if positive then PInf else NInf)
       else (if positive then NInf else PInf).

Definition np_mul (a b : npfloat) : npfloat :=
  match a, b with
  | NaN, _ | _, NaN => NaN
  | Fin x, Fin y => Fin (x * y)
  | PInf, Fin y | Fin y, PInf => signed_inf true y
  | NInf, Fin y | Fin y, NInf => signed_inf false y
  | PInf, PInf | NInf, NInf => PInf
  | PInf, NInf | NInf, PInf => NInf
  end.

(** Division of numpy scalars never raises: [x / 0] is an infinity with the
    sign of [x], and [0 / 0] is NaN.  (Zero divisors are the non-negative
    zero here: they are lengths, or square roots.) *)
Definition np_div (a b : npfloat) : npfloat :=
  match a, b with
  | NaN, _ | _, NaN => NaN
  | Fin x, Fin y => if Req_dec_T y 0 then signed_inf true x else Fin (x / y)
  | Fin _, PInf | Fin _, NInf => Fin 0
  | PInf, Fin y => if Rlt_dec y 0 then NInf else PInf
  | NInf, Fin y => if Rlt_dec y 0 then PInf else NInf
  | PInf, PInf | PInf, NInf | NInf, PInf | NInf, NInf => NaN
  end.

Definition np_sqrt (a : npfloat) : npfloat :=
  match a with
  | Fin x => if Rlt_dec x 0 then NaN else Fin (sqrt x)
  | PInf => PInf
  | NInf => NaN
  | NaN => NaN
  end.

(** [a > 0]; a comparison with NaN is false. *)
Definition np_gt0 (a : npfloat) : bool :=
  match a with
  | Fin x => if Rlt_dec 0 x then true else false
  | PInf => true
  | NInf => false
  | NaN => false
  end.

Definition np_of_nat (n : nat) : npfloat := Fin (INR n).
Definition np_of_Z (n : Z) : npfloat := Fin (IZR n).

(** ** Reductions of a Series without missing values *)

Definition Rsum (xs : list R) : R := fold_right Rplus 0%R xs.

(** [Series.mean()]: NaN on the empty Series. *)
Definition np_mean (xs : list R) : npfloat :=
  np_div (Fin (Rsum xs)) (np_of_nat (List.length xs)).

(** [Series.var(ddof=1)] and [np.var(x, ddof=1)] on a Series: NaN when
    there are no more values than [ddof], else the sum of the squared
    deviations over [count - ddof]. *)
Definition np_var (ddof : nat) (xs : list R) : npfloat :=
  if (List.length xs <=? ddof)%nat then NaN
  else
    let avg := (Rsum xs / INR (List.length xs))%R in
    Fin (Rsum (map (fun v => (avg - v) * (avg - v))%R xs) / INR (List.length xs - ddof))%R.

(** [Series.std()]: the sample standard deviation. *)
Definition np_std (xs : list R) : npfloat := np_sqrt (np_var 1 xs).

Fixpoint insert_sorted (v : R) (xs : list R) : list R :=
  match xs with
  | [] => [v]
  | x :: xs' => if Rle_dec v x then v :: xs else x :: insert_sorted v xs'
  end.

Definition sort_values (xs : list R) : list R := fold_right insert_sorted [] xs.

(** [Series.median()]: the middle value, or the mean of the two middle
    values. *)
Definition np_median (xs : list R) : npfloat :=
  let s := sort_values xs in
  let n := List.length xs in
  match n with
  | O => NaN
  | _ =>
      if Nat.odd n then Fin (nth (n / 2) s 0%R)
      else Fin ((nth (n / 2 - 1) s 0%R + nth (n / 2) s 0%R) / 2)%R
  end.

Definition np_min (xs : list R) : npfloat :=
  match xs with
  | [] => NaN
  | x :: xs' => Fin (fold_left Rmin xs' x)
  end.

Definition np_max (xs : list R) : npfloat :=
  match xs with
  | [] => NaN
  | x :: xs' => Fin (fold_left Rmax xs' x)
  end.

(** [Series.dropna()]. *)
Fixpoint dropna (col : list (option R)) : list R :=
  match col with
  | [] => []
  | Some v :: col' => v :: dropna col'
  | None :: col' => dropna col'
  end.

(** ** Drawing calls *)

Inductive plot_call : Type :=
| plt_figure (width height : Z)
| plt_text (s : string)
| plt_axis_off
| sns_kdeplot (data : list (option R)) (label : string)
| sns_lmplot (data : list MergedRowXY)
| plt_title (s : string)
| plt_xlabel (s : string)
| plt_ylabel (s : string)
| plt_legend (title : string)
| plt_grid
| plt_tight_layout.

Definition is_kdeplot (c : plot_call) : bool :=
  match c with sns_kdeplot _ _ => true | _ => false end.

Definition is_empty {A : Type} (df : list A) : bool :=
  match df with [] => true | _ => false end.

(** ** [apptest.py] *)

(** The reactive inputs of the application. *)
Record Input : Type := {
  biomarker_x : string;
  heart_disease_label : string;
  gender_filter : string;
  age_group_filter : string;
  filter_heart_disease : bool
}.

Definition no_age_data_message : string :=
  "No data available for selected age group.".

Definition no_data_drawing : list plot_call :=
  [ plt_figure 8 4; plt_text no_age_data_message; plt_axis_off ].

(** The loop over [(1, "Disease"), (0, "No Disease")]: one density call
    per disease status, on the biomarker column of the subset. *)
Definition kde_curves (merged_data : list MergedRowAge) : list plot_call :=
  map (fun cl : Z * string =>
         let (condition, label) := cl in
         let subset := filter (fun r => HeartDisease (row r) =? condition) merged_data in
         sns_kdeplot (map (fun r => BiomarkerX (row r)) subset) label)
      [ (1, "Disease"); (0, "No Disease") ].

(** The cohort of [kde_plot] after the join and the age step. *)
Definition kde_age_cohort (bm : BiomarkerTable) (lb : LabelTable) (input : Input)
    : outcome (list MergedRowAge) :=
  merged_data <- merge_data_age bm lb (biomarker_x input) (heart_disease_label input) ;;
  age_filter_step (age_group_filter input) merged_data.

(** The cohort whose densities [kde_plot] draws: disease filter, then
    gender filter, on the age-filtered cohort. *)
Definition kde_filters (input : Input) (merged_data : list MergedRowAge)
    : list MergedRowAge :=
  gender_filter_step row (gender_filter input)
    (disease_filter row (filter_heart_disease input) merged_data).

Definition kde_plot (bm : BiomarkerTable) (lb : LabelTable) (input : Input)
    : outcome (list plot_call) :=
  merged_data <- kde_age_cohort bm lb input ;;
  if is_empty merged_data
  then Returned no_data_drawing
  else
    let merged_data := kde_filters input merged_data in
    Returned
      ([ plt_figure 10 6 ]
       ++ kde_curves merged_data
       ++ [ plt_title ("KDE of " ++ biomarker_x input ++ " Distribution by Disease Status");
            plt_xlabel (biomarker_x input);
            plt_ylabel "Density";
            plt_legend (heart_disease_label input);
            plt_grid;
            plt_tight_layout ])%list.

(** The cohort of [summary_stats]: the join, the disease filter, the gender
    filter. *)
Definition summary_cohort (bm : BiomarkerTable) (lb : LabelTable) (input : Input)
    : outcome (list MergedRow) :=
  merged_data <- merge_data bm lb (biomarker_x input) (heart_disease_label input) ;;
  Returned (gender_filter_step (fun r => r) (gender_filter input)
              (disease_filter (fun r => r) (filter_heart_disease input) merged_data)).

(** [.map({1: "Disease", 0: "No Disease"})]: any other value becomes
    NaN. *)
Definition map_heart_disease (v : Z) : option string :=
  if v =? 1 then Some "Disease"
  else if v =? 0 then Some "No Disease"
  else None.

Definition label_is (group : string) (r : MergedRow) : bool :=
  match map_heart_disease (HeartDisease r) with
  | Some g => if string_dec g group then true else false
  | None => false
  end.

(** [merged_data[merged_data["Heart Disease"] == group]["Biomarker X"].dropna()]. *)
Definition group_data (merged_data : list MergedRow) (group : string) : list R :=
  dropna (map BiomarkerX (filter (label_is group) merged_data)).

(** The pieces of [output_str].  The numbers are kept as numbers: their
    rendering with two decimals is not modelled. *)
Inductive out_item : Type :=
| GroupSection (group : string) (stats_dict : list (string * npfloat))
| TestSection (p_val cohen_d : npfloat)
| Line (s : string).

Definition stats_dict (group_data : list R) : list (string * npfloat) :=
  [ ("Count", np_of_nat (List.length group_data));
    ("Mean", np_mean group_data);
    ("Median", np_median group_data);
    ("Std Dev", np_std group_data);
    ("Min", np_min group_data);
    ("Max", np_max group_data) ].

Fixpoint dict_mem {V : Type} (d : list (string * V)) (k : string) : bool :=
  match d with
  | [] => false
  | (k', _) :: d' => if string_dec k' k then true else dict_mem d' k
  end.

Fixpoint dict_set {V : Type} (d : list (string * V)) (k : string) (v : V)
    : list (string * V) :=
  match d with
  | [] => [(k, v)]
  | (k', v') :: d' =>
      if string_dec k' k then (k, v) :: d' else (k', v') :: dict_set d' k v
  end.

Definition stats_state : Type := (list (string * list R) * list out_item)%type.

(** One round of the loop over the groups: an empty group is skipped. *)
Definition group_step (merged_data : list MergedRow) (st : stats_state)
    (group : string) : stats_state :=
  let (group_stats, output_str) := st in
  let gd := group_data merged_data group in
  if is_empty gd then st
  else (dict_set group_stats group gd,
        (output_str ++ [ GroupSection group (stats_dict gd) ])%list).

Definition grouped_stats (merged_data : list MergedRow) : stats_state :=
  fold_left (group_step merged_data) [ "Disease"; "No Disease" ] ([], []).

Definition insufficient_message : string :=
  "Insufficient data to perform statistical comparison.".

Definition no_data_message : string :=
  "❗ No data available for the selected filters (age group, gender, disease).".

Section HypothesisTest.

(** The survival function of Student's distribution, which [scipy] takes
    from its special functions: [student_t_sf df t] is the probability of a
    value above [t] with [df] degrees of freedom. *)
Variable student_t_sf : npfloat -> R -> R.

Definition two_sided_p_value (df t : npfloat) : npfloat :=
  match t with
  | NaN => NaN
  | PInf | NInf => Fin 0
  | Fin tv => Fin (2 * student_t_sf df (Rabs tv))
  end.

(** [stats.ttest_ind(x1, x2, equal_var=False)]: Welch's test, from the
    sample means and the sample variances. *)
Definition ttest_ind (x1 x2 : list R) : npfloat * npfloat :=
  let n1 := List.length x1 in
  let n2 := List.length x2 in
  let vn1 := np_div (np_var 1 x1) (np_of_nat n1) in
  let vn2 := np_div (np_var 1 x2) (np_of_nat n2) in
  let df :=
    np_div (np_mul (np_add vn1 vn2) (np_add vn1 vn2))
           (np_add (np_div (np_mul vn1 vn1) (np_of_Z (Z.of_nat n1 - 1)))
                   (np_div (np_mul vn2 vn2) (np_of_Z (Z.of_nat n2 - 1)))) in
  let df := match df with NaN => Fin 1 | _ => df end in
  let denom := np_sqrt (np_add vn1 vn2) in
  let t := np_div (np_sub (np_mean x1) (np_mean x2)) denom in
  (t, two_sided_p_value df t).

Definition pooled_std (x1 x2 : list R) : npfloat :=
  let n1 := Z.of_nat (List.length x1) in
  let n2 := Z.of_nat (List.length x2) in
  let s1 := np_var 1 x1 in
  let s2 := np_var 1 x2 in
  np_sqrt (np_div (np_add (np_mul (np_of_Z (n1 - 1)) s1) (np_mul (np_of_Z (n2 - 1)) s2))
                  (np_of_Z (n1 + n2 - 2))).

Definition cohen_d (x1 x2 : list R) : npfloat :=
  if np_gt0 (pooled_std x1 x2)
  then np_div (np_sub (np_mean x1) (np_mean x2)) (pooled_std x1 x2)
  else NaN.

(** The test statistic, the p-value and the effect size. *)
Definition hypothesis_test (x1 x2 : list R) : npfloat * npfloat * npfloat :=
  let (t_stat, p_val) := ttest_ind x1 x2 in
  (t_stat, p_val, cohen_d x1 x2).

(** "Only do test if both groups exist". *)
Definition test_stage (st : stats_state) : outcome (list out_item) :=
  let (group_stats, output_str) := st in
  if dict_mem group_stats "Disease" && dict_mem group_stats "No Disease"
  then
    x1 <- dict_get group_stats "Disease" ;;
    x2 <- dict_get group_stats "No Disease" ;;
    let '(_, p_val, d) := hypothesis_test x1 x2 in
    Returned (output_str ++ [ TestSection p_val d ])%list
  else Returned (output_str ++ [ Line insufficient_message ])%list.

(** The value of [output_str] when the last test of [summary_stats] is
    reached. *)
Definition summary_output_str (merged_data : list MergedRow) : outcome (list out_item) :=
  test_stage (grouped_stats merged_data).

Definition summary_stats (bm : BiomarkerTable) (lb : LabelTable) (input : Input)
    : outcome (list out_item) :=
  merged_data <- summary_cohort bm lb input ;;
  output_str <- summary_output_str merged_data ;;
  if is_empty merged_data
  then Returned [ Line no_data_message ]
  else Returned output_str.

End HypothesisTest.

(** ** Loading the tables *)

(** [dict(zip(names, descriptions))] on the rows of the dictionary table:
    a name that comes again overwrites the description it had. *)
Definition dict_of_rows {V : Type} (rows : list (string * V)) : list (string * V) :=
  fold_left (fun d kv => dict_set d (fst kv) (snd kv)) rows [].

(** [d.pop(k, None)]. *)
Fixpoint dict_pop {V : Type} (d : list (string * V)) (k : string) : list (string * V) :=
  match d with
  | [] => []
  | (k', v) :: d' => if string_dec k' k then d' else (k', v) :: dict_pop d' k
  end.

(** [df.rename(columns=mapping)]: a column whose name is a key takes the
    value as its name, the others keep theirs. *)
Definition rename_column (mapping : list (string * string)) (c : string) : string :=
  match dict_get mapping c with
  | Returned description => description
  | Raised _ => c
  end.

Definition rename_columns (mapping : list (string * string)) (columns : list string)
    : list string :=
  map (rename_column mapping) columns.

Definition missing_gender_message : string :=
  "'RIAGENDR' column is missing from nhanes_biomarkers.".

(** The top of [apptest.py]: the mapping from variable names to
    descriptions, without SEQN, RIAGENDR and RIDAGEYR; the renaming of the
    columns of [nhanes_biomarkers]; the test that RIAGENDR is still a
    column.  The result is the list of the column names. *)
Definition label_mapping (nhanes_dict : list (string * string)) : list (string * string) :=
  dict_pop (dict_pop (dict_pop (dict_of_rows nhanes_dict) "SEQN") "RIAGENDR") "RIDAGEYR".

Definition load_columns (nhanes_dict : list (string * string)) (columns : list string)
    : outcome (list string) :=
  let columns := rename_columns (label_mapping nhanes_dict) columns in
  if has_column columns "RIAGENDR"
  then Returned columns
  else Raised (KeyError missing_gender_message).

(** ** [ShinyApp/apptest.py] *)

Module ShinyApp.

Record Input : Type := {
  biomarker_x : string;
  biomarker_y : string;
  heart_disease_label : string;
  gender_filter : string;
  filter_heart_disease : bool
}.

Definition same_biomarker_message : string :=
  "Please select different biomarkers for X and Y axes.".

Definition regression_plot (bm : BiomarkerTable) (lb : LabelTable) (input : Input)
    : outcome (list plot_call) :=
  if string_dec (biomarker_x input) (biomarker_y input)
  then Raised (ValueError same_biomarker_message)
  else
    merged_data <- merge_data_xy bm lb (biomarker_x input) (biomarker_y input)
                     (heart_disease_label input) ;;
    let merged_data := disease_filter xy_row (filter_heart_disease input) merged_data in
    let merged_data := gender_filter_step xy_row (gender_filter input) merged_data in
    Returned
      [ sns_lmplot merged_data;
        plt_title (biomarker_x input ++ " vs. " ++ biomarker_y input);
        plt_xlabel (biomarker_x input);
        plt_ylabel (biomarker_y input);
        plt_legend (heart_disease_label input);
        plt_grid;
        plt_tight_layout ].

(** The top of [ShinyApp/apptest.py]: only SEQN and RIAGENDR are taken out
    of the mapping. *)
Definition label_mapping (nhanes_dict : list (string * string)) : list (string * string) :=
  dict_pop (dict_pop (dict_of_rows nhanes_dict) "SEQN") "RIAGENDR".

Definition load_columns (nhanes_dict : list (string * string)) (columns : list string)
    : outcome (list string) :=
  let columns := rename_columns (label_mapping nhanes_dict) columns in
  if has_column columns "RIAGENDR"
  then Returned columns
  else Raised (KeyError missing_gender_message).

Definition kde_curves (merged_data : list MergedRow) : list plot_call :=
  map (fun cl : Z * string =>
         let (condition, label) := cl in
         let subset := filter (fun r => HeartDisease r =? condition) merged_data in
         sns_kdeplot (map BiomarkerX subset) label)
      [ (1, "Disease"); (0, "No Disease") ].

(** [kde_plot] of [ShinyApp/apptest.py]: no age column, no age step and no
    test of emptiness. *)
Definition kde_plot (bm : BiomarkerTable) (lb : LabelTable) (input : Input)
    : outcome (list plot_call) :=
  merged_data <- merge_data bm lb (biomarker_x input) (heart_disease_label input) ;;
  let merged_data := disease_filter (fun r => r) (filter_heart_disease input) merged_data in
  let merged_data := gender_filter_step (fun r => r) (gender_filter input) merged_data in
  Returned
    ([ plt_figure 10 6 ]
     ++ kde_curves merged_data
     ++ [ plt_title ("KDE of " ++ biomarker_x input ++ " Distribution by Disease Status");
          plt_xlabel (biomarker_x input);
          plt_ylabel "Density";
          plt_legend (heart_disease_label input);
          plt_grid;
          plt_tight_layout ])%list.

End ShinyApp.

(** * Vocabulary of the statements *)

(** ** Cohorts and groups *)

Definition key_in (keys : list Z) (k : Z) : bool := existsb (Z.eqb k) keys.

(** The six decade entries of the age selector, with the bounds the claim
    gives them. *)
Definition age_bins : list (string * (Z * Z)) :=
  [ ("20–30", (20, 30));
    ("30–40", (30, 40));
    ("40–50", (40, 50));
    ("50–60", (50, 60));
    ("60–70", (60, 70));
    ("70–80", (70, 80)) ].

(** The Filter Pipeline as the specification words it: the age filter,
    then the disease filter, then the gender filter, on the joined
    cohort. *)
Definition filter_pipeline_spec (input : Input) (joined : list MergedRowAge)
    : outcome (list MergedRowAge) :=
  after_age <- age_filter_step (age_group_filter input) joined ;;
  Returned (gender_filter_step row (gender_filter input)
              (disease_filter row (filter_heart_disease input) after_age)).

Definition has_value (r : MergedRow) : bool :=
  match BiomarkerX r with Some _ => true | None => false end.

(** The number of rows of a disease-status group whose biomarker value is
    not missing. *)
Definition non_missing_count (merged_data : list MergedRow) (group : string) : nat :=
  List.length (filter (fun r => label_is group r && has_value r) merged_data).

(** ** The pieces of the text of [summary_stats] *)

(** What one round of the loop over the groups adds to [output_str] ... *)
Definition group_section (merged_data : list MergedRow) (group : string) : list out_item :=
  if is_empty (group_data merged_data group) then []
  else [ GroupSection group (stats_dict (group_data merged_data group)) ].

(** ... and to [group_stats]. *)
Definition group_entry (merged_data : list MergedRow) (group : string)
    : list (string * list R) :=
  if is_empty (group_data merged_data group) then []
  else [ (group, group_data merged_data group) ].

(** The last piece of [output_str]: the test when both groups have values,
    the message otherwise. *)
Definition comparison_item (student_t_sf : npfloat -> R -> R)
    (merged_data : list MergedRow) : out_item :=
  if negb (is_empty (group_data merged_data "Disease"))
     && negb (is_empty (group_data merged_data "No Disease"))
  then
    let '(_, p_val, d) :=
      hypothesis_test student_t_sf (group_data merged_data "Disease")
                      (group_data merged_data "No Disease") in
    TestSection p_val d
  else Line insufficient_message.

(** ** Drawings *)

Definition is_text (c : plot_call) : bool :=
  match c with plt_text _ => true | _ => false end.

(** The drawing of [kde_plot] when the cohort is not empty after the age
    step. *)
Definition density_drawing (input : Input) (cohort : list MergedRowAge)
    : list plot_call :=
  ([ plt_figure 10 6 ]
   ++ kde_curves cohort
   ++ [ plt_title ("KDE of " ++ biomarker_x input ++ " Distribution by Disease Status");
        plt_xlabel (biomarker_x input);
        plt_ylabel "Density";
        plt_legend (heart_disease_label input);
        plt_grid;
        plt_tight_layout ])%list.

(** ** Signs *)



(** ** Dictionaries and column names *)

Definition keys {V : Type} (d : list (string * V)) : list string := map fst d.

(** The value of the last row of the dictionary table whose name is [c]. *)
Definition last_description {V : Type} (rows : list (string * V)) (c : string) : option V :=
  fold_left (fun acc kv => if string_dec (fst kv) c then Some (snd kv) else acc) rows None.

Definition protected_columns : list string := [ "SEQN"; "RIAGENDR"; "RIDAGEYR" ].

(** The column names a request brings together are pairwise distinct: the
    selected biomarkers and the label are measurement and label columns,
    each selected once, and none bears the name of a structural column.
    Then no column is selected twice, the join adds no suffix and the
    renaming gives each column its own name. *)
Definition distinct_columns (selected : list string) (label : string) : Prop :=
  NoDup ("SEQN" :: "RIAGENDR" :: "RIDAGEYR" :: "id_client" :: label :: selected).

(** ** The filters as predicates on a row *)

Definition disease_keeps (filter_heart_disease : bool) (r : MergedRow) : bool :=
  negb filter_heart_disease || (HeartDisease r =? 1).

Definition gender_keeps (gender_filter : string) (r : MergedRow) : bool :=
  if string_dec gender_filter "Male" then Gender r =? 1
  else if string_dec gender_filter "Female" then Gender r =? 2
  else true.

(** The entries the age step accepts, once the dash is a hyphen. *)
Definition age_entries : list string := "All Ages" :: map fst age_bounds.

(** ** Samples *)

Definition Rmin_list (x : R) (xs : list R) : R := fold_left Rmin xs x.
Definition Rmax_list (x : R) (xs : list R) : R := fold_left Rmax xs x.

(** * Sample tables and requests *)

Definition subject (id gender age : Z) (value : option R) : BiomarkerRow :=
  {| SEQN := id; RIAGENDR := gender; RIDAGEYR := age; markers := fun _ => value |}.

Definition labelled (id indicator : Z) : LabelRow :=
  {| id_client := id; labels := fun _ => indicator |}.

Definition aged (age : Z) : MergedRowAge :=
  {| row := {| m_SEQN := 1; BiomarkerX := None; Gender := 1;
               m_id_client := 1; HeartDisease := 0 |};
     m_RIDAGEYR := age |}.

(** Three subjects, the third without a measurement. *)
Definition sample_biomarkers : BiomarkerTable :=
  {| bm_columns := [ "Glucose"; "Cholesterol" ];
     bm_rows := [ subject 1 1 25 (Some 10%R);
                  subject 2 2 35 (Some 20%R);
                  subject 3 2 29 None ] |}.

(** Labels for subjects 1 and 2, and for a subject 4 without
    measurements. *)
Definition sample_labels : LabelTable :=
  {| lb_columns := [ "CHD" ];
     lb_rows := [ labelled 1 1; labelled 2 0; labelled 4 1 ] |}.

(** Labels for the three subjects of [sample_biomarkers]. *)
Definition scenario_labels : LabelTable :=
  {| lb_columns := [ "CHD" ];
     lb_rows := [ labelled 1 1; labelled 2 0; labelled 3 1 ] |}.

Definition scenario_cohort : list MergedRow :=
  [ mk_merged "Glucose" "CHD" (subject 1 1 25 (Some 10%R)) (labelled 1 1);
    mk_merged "Glucose" "CHD" (subject 2 2 35 (Some 20%R)) (labelled 2 0);
    mk_merged "Glucose" "CHD" (subject 3 2 29 None) (labelled 3 1) ].

Definition no_subjects : BiomarkerTable :=
  {| bm_columns := [ "Glucose" ]; bm_rows := [] |}.

Definition no_columns : BiomarkerTable := {| bm_columns := []; bm_rows := [] |}.

(** A single man of 25 without the disease. *)
Definition young_subject : BiomarkerTable :=
  {| bm_columns := [ "Glucose" ];
     bm_rows := [ subject 1 1 25 (Some 5%R) ] |}.

Definition young_label : LabelTable :=
  {| lb_columns := [ "CHD" ]; lb_rows := [ labelled 1 0 ] |}.

(** A single woman of 35 without the disease. *)
Definition female_only : BiomarkerTable :=
  {| bm_columns := [ "Glucose" ];
     bm_rows := [ subject 2 2 35 (Some 20%R) ] |}.

Definition female_label : LabelTable :=
  {| lb_columns := [ "CHD" ]; lb_rows := [ labelled 2 0 ] |}.

Definition all_ages_request (gender : string) (disease_only : bool) : Input :=
  {| biomarker_x := "Glucose"; heart_disease_label := "CHD";
     gender_filter := gender; age_group_filter := "All Ages";
     filter_heart_disease := disease_only |}.

Definition thirties_request : Input :=
  {| biomarker_x := "Glucose"; heart_disease_label := "CHD";
     gender_filter := "All"; age_group_filter := "30–40";
     filter_heart_disease := false |}.

Definition same_axes_request : ShinyApp.Input :=
  {| ShinyApp.biomarker_x := "Glucose"; ShinyApp.biomarker_y := "Glucose";
     ShinyApp.heart_disease_label := "CHD"; ShinyApp.gender_filter := "All";
     ShinyApp.filter_heart_disease := false |}.

(** * Properties *)

(** The column names of a concrete request are pairwise distinct. *)
Ltac distinct_names :=
  unfold distinct_columns; repeat constructor; simpl; intuition discriminate.

(** ** The inner join *)

Section Join.

Context {A B C : Type}.
Variables (lkey : A -> Z) (rkey : B -> Z) (mk : A -> B -> C).

Lemma pd_merge_cons (l : A) (left : list A) (right : list B) :
  pd_merge lkey rkey mk (l :: left) right =
  (map (mk l) (filter (fun r => rkey r =? lkey l) right)
   ++ pd_merge lkey rkey mk left right)%list.
Proof. reflexivity. Qed.

(** Every row of the join pairs a left row and a right row of equal key. *)
Lemma pd_merge_In (left : list A) (right : list B) (c : C) :
  In c (pd_merge lkey rkey mk left right) <->
  exists l r, In l left /\ In r right /\ rkey r = lkey l /\ c = mk l r.
Proof.
  unfold pd_merge. rewrite in_flat_map. split.
  - intros (l & Hl & Hc). apply in_map_iff in Hc as (r & <- & Hr).
    apply filter_In in Hr as [Hr Hk]. apply Z.eqb_eq in Hk.
    now exists l, r.
  - intros (l & r & Hl & Hr & Hk & ->). exists l. split; [assumption|].
    apply in_map, filter_In. split; [assumption|]. now apply Z.eqb_eq.
Qed.

(** A key occurs at most once among rows whose keys are distinct. *)
Lemma matches_at_most_one (k : Z) (right : list B) :
  NoDup (map rkey right) ->
  (List.length (filter (fun r => Z.eqb (rkey r) k) right) <= 1)%nat.
Proof.
  induction right as [|r right IH]; simpl; intros Hnd; [lia|].
  inversion Hnd as [|? ? Hnotin Hnd']; subst.
  destruct (rkey r =? k) eqn:E; [|now apply IH].
  apply Z.eqb_eq in E. simpl.
  assert (Hnone : filter (fun r0 => rkey r0 =? k) right = []).
  { destruct (filter (fun r0 => rkey r0 =? k) right) as [|r' rest] eqn:F; [reflexivity|].
    exfalso. apply Hnotin.
    assert (Hin : In r' (filter (fun r0 => rkey r0 =? k) right))
      by (rewrite F; now left).
    apply filter_In in Hin as [Hin Hk]. apply Z.eqb_eq in Hk.
    rewrite E, <- Hk. now apply in_map. }
  rewrite Hnone. simpl. lia.
Qed.

Lemma pd_merge_length_left (left : list A) (right : list B) :
  NoDup (map rkey right) ->
  (List.length (pd_merge lkey rkey mk left right) <= List.length left)%nat.
Proof.
  intros Hnd. induction left as [|l left IH]; [simpl; lia|].
  rewrite pd_merge_cons, length_app, length_map. simpl.
  pose proof (matches_at_most_one (lkey l) right Hnd). lia.
Qed.

Lemma filter_split_length {T : Type} (p q : T -> bool) (xs : list T) :
  (forall x, In x xs -> p x = true -> q x = false) ->
  List.length (filter (fun x => p x || q x) xs) =
  (List.length (filter p xs) + List.length (filter q xs))%nat.
Proof.
  induction xs as [|x xs IH]; intros Hdisj; [reflexivity|].
  simpl. destruct (p x) eqn:Ep; simpl.
  - rewrite (Hdisj x (or_introl eq_refl) Ep). simpl.
    rewrite IH; [reflexivity|]. intros y Hy. apply Hdisj. now right.
  - destruct (q x); simpl; rewrite IH; try lia;
      intros y Hy; apply Hdisj; now right.
Qed.

(** With distinct left keys, the join has one row per right row whose key
    occurs on the left. *)
Lemma pd_merge_length_matched (left : list A) (right : list B) :
  NoDup (map lkey left) ->
  List.length (pd_merge lkey rkey mk left right) =
  List.length (filter (fun r => key_in (map lkey left) (rkey r)) right).
Proof.
  induction left as [|l left IH]; intros Hnd.
  - simpl. induction right as [|r right IHr]; [reflexivity | exact IHr].
  - inversion Hnd as [|? ? Hnotin Hnd']; subst.
    rewrite pd_merge_cons, length_app, length_map, (IH Hnd').
    simpl map. unfold key_in. simpl existsb.
    rewrite (filter_split_length (fun r => rkey r =? lkey l)
               (fun r => existsb (Z.eqb (rkey r)) (map lkey left))); [reflexivity|].
    intros r _ Hk. apply Z.eqb_eq in Hk.
    destruct (existsb (Z.eqb (rkey r)) (map lkey left)) eqn:E; [|reflexivity].
    exfalso. apply Hnotin. apply existsb_exists in E as (k & Hin & Hk').
    apply Z.eqb_eq in Hk'. now rewrite <- Hk, Hk'.
Qed.

Lemma pd_merge_length_right (left : list A) (right : list B) :
  NoDup (map lkey left) ->
  (List.length (pd_merge lkey rkey mk left right) <= List.length right)%nat.
Proof.
  intros Hnd. rewrite (pd_merge_length_matched left right Hnd).
  apply filter_length_le.
Qed.

End Join.

Lemma require_columns_one (cols : list string) (name : string) :
  require_columns cols [name]
  = if has_column cols name then Returned tt
    else Raised (KeyError_not_in_index [name]).
Proof.
  unfold require_columns. simpl. now destruct (has_column cols name).
Qed.

Lemma require_columns_cases (cols names : list string) :
  require_columns cols names = Returned tt
  \/ exists missing, require_columns cols names = Raised (KeyError_not_in_index missing).
Proof.
  unfold require_columns.
  destruct (nodup string_dec _) as [|c rest]; [now left | right; now eexists].
Qed.

Lemma merge_data_age_returns (bm : BiomarkerTable) (lb : LabelTable)
    (x label : string) (merged : list MergedRowAge) :
  merge_data_age bm lb x label = Returned merged ->
  merged = pd_merge SEQN id_client (mk_merged_age x label) (bm_rows bm) (lb_rows lb).
Proof.
  unfold merge_data_age. rewrite !require_columns_one.
  destruct (has_column (bm_columns bm) x); simpl; [|discriminate].
  destruct (has_column (lb_columns lb) label); simpl; [|discriminate].
  now intros [= <-].
Qed.

Lemma merge_data_returns (bm : BiomarkerTable) (lb : LabelTable)
    (x label : string) (merged : list MergedRow) :
  merge_data bm lb x label = Returned merged ->
  merged = pd_merge SEQN id_client (mk_merged x label) (bm_rows bm) (lb_rows lb).
Proof.
  unfold merge_data. rewrite !require_columns_one.
  destruct (has_column (bm_columns bm) x); simpl; [|discriminate].
  destruct (has_column (lb_columns lb) label); simpl; [|discriminate].
  now intros [= <-].
Qed.

(** C5.  When the subject identifiers are unique within the biomarker table
    and within the label table, the joined cohort has at most
    min(|biomarker table|, |label table|) rows, and the subject identifier
    of every joined row occurs in both tables. *)
Theorem joined_cohort_bounded_and_matched (bm : BiomarkerTable) (lb : LabelTable)
    (x label : string) (merged : list MergedRowAge) :
  NoDup (map SEQN (bm_rows bm)) ->
  NoDup (map id_client (lb_rows lb)) ->
  merge_data_age bm lb x label = Returned merged ->
  (List.length merged <= Nat.min (List.length (bm_rows bm)) (List.length (lb_rows lb)))%nat
  /\ forall r, In r merged ->
       In (m_SEQN (row r)) (map SEQN (bm_rows bm))
       /\ In (m_SEQN (row r)) (map id_client (lb_rows lb)).
Proof.
  intros Hbm Hlb Hm. apply merge_data_age_returns in Hm. subst merged. split.
  - apply Nat.min_glb.
    + now apply pd_merge_length_left.
    + now apply pd_merge_length_right.
  - intros r Hr. apply pd_merge_In in Hr as (b & l & Hb & Hl & Hk & ->). simpl.
    split; [now apply in_map|]. rewrite <- Hk. now apply in_map.
Qed.

(** The same bound for the join of [summary_stats]. *)
Lemma summary_join_bounded (bm : BiomarkerTable) (lb : LabelTable)
    (x label : string) (merged : list MergedRow) :
  NoDup (map SEQN (bm_rows bm)) ->
  NoDup (map id_client (lb_rows lb)) ->
  merge_data bm lb x label = Returned merged ->
  (List.length merged <= Nat.min (List.length (bm_rows bm)) (List.length (lb_rows lb)))%nat.
Proof.
  intros Hbm Hlb Hm. apply merge_data_returns in Hm. subst merged.
  apply Nat.min_glb.
  - now apply pd_merge_length_left.
  - now apply pd_merge_length_right.
Qed.

(** Three subjects against three labels, two of them shared. *)
Lemma joined_cohort_bounded_and_matched_witness :
  exists merged,
    merge_data_age sample_biomarkers sample_labels "Glucose" "CHD" = Returned merged
    /\ (List.length merged <= 3)%nat
    /\ forall r, In r merged ->
         In (m_SEQN (row r)) [1; 2; 3] /\ In (m_SEQN (row r)) [1; 2; 4].
Proof.
  eexists. split; [reflexivity|].
  apply (joined_cohort_bounded_and_matched sample_biomarkers sample_labels "Glucose" "CHD").
  - simpl. repeat constructor; simpl; intuition discriminate.
  - simpl. repeat constructor; simpl; intuition discriminate.
  - reflexivity.
Defined.

(** ** The age filter *)

Lemma age_bins_are_choices :
  map fst age_bins = tl age_group_choices.
Proof. reflexivity. Qed.

Lemma in_age_range_spec (low high : Z) (r : MergedRowAge) :
  in_age_range low high r = true <-> low <= m_RIDAGEYR r < high.
Proof.
  unfold in_age_range. rewrite andb_true_iff, Z.leb_le, Z.ltb_lt. tauto.
Qed.

Lemma age_filter_step_bin (choice : string) (low high : Z)
    (merged_data : list MergedRowAge) :
  In (choice, (low, high)) age_bins ->
  age_filter_step choice merged_data =
  Returned (filter (in_age_range low high) merged_data).
Proof.
  intros Hin. simpl in Hin.
  repeat (destruct Hin as [Heq | Hin]; [injection Heq as <- <- <-; reflexivity|]).
  contradiction.
Qed.

Lemma age_filter_step_all_ages (merged_data : list MergedRowAge) :
  age_filter_step "All Ages" merged_data = Returned merged_data.
Proof. reflexivity. Qed.

(** C2.  For each of the six age bins the age step returns exactly the rows
    with [low <= RIDAGEYR < high], the 70-80 bin included; "All Ages"
    returns its input unchanged; a row of age 30 survives the 30-40 bin
    and not the 20-30 bin. *)
Theorem age_filter_half_open :
  (forall choice low high merged_data,
      In (choice, (low, high)) age_bins ->
      exists kept,
        age_filter_step choice merged_data = Returned kept
        /\ forall r, In r kept <-> In r merged_data /\ low <= m_RIDAGEYR r < high)
  /\ (forall merged_data, age_filter_step "All Ages" merged_data = Returned merged_data)
  /\ age_filter_step "30–40" [ aged 30 ] = Returned [ aged 30 ]
  /\ age_filter_step "20–30" [ aged 30 ] = Returned [].
Proof.
  split; [|split; [|split]].
  - intros choice low high merged_data Hin.
    exists (filter (in_age_range low high) merged_data).
    split; [now apply age_filter_step_bin|].
    intros r. now rewrite filter_In, in_age_range_spec.
  - exact age_filter_step_all_ages.
  - reflexivity.
  - reflexivity.
Qed.

Lemma age_filter_half_open_witness :
  exists kept,
    age_filter_step "70–80" [ aged 69; aged 70; aged 79; aged 80 ] = Returned kept
    /\ forall r, In r kept <->
         In r [ aged 69; aged 70; aged 79; aged 80 ] /\ 70 <= m_RIDAGEYR r < 80.
Proof.
  apply (proj1 age_filter_half_open "70–80" 70 80).
  simpl. do 5 right. left. reflexivity.
Defined.

(** ** The density plot *)

Lemma kde_plot_after_age (bm : BiomarkerTable) (lb : LabelTable) (input : Input)
    (cohort : list MergedRowAge) :
  kde_age_cohort bm lb input = Returned cohort ->
  kde_plot bm lb input =
  if is_empty cohort
  then Returned no_data_drawing
  else Returned (density_drawing input (kde_filters input cohort)).
Proof. unfold kde_plot. now intros ->. Qed.

Lemma kde_age_cohort_all_ages (bm : BiomarkerTable) (lb : LabelTable) (input : Input) :
  age_group_filter input = "All Ages" ->
  kde_age_cohort bm lb input =
  merge_data_age bm lb (biomarker_x input) (heart_disease_label input).
Proof.
  intros Hall. unfold kde_age_cohort. rewrite Hall.
  destruct (merge_data_age bm lb (biomarker_x input) (heart_disease_label input));
    reflexivity.
Qed.

(** C10.  In [kde_plot] the cohort is tested for emptiness right after the
    age step: whenever it is empty there, the drawing is the message "No
    data available for selected age group." and holds no density call,
    whatever the disease and gender filters; with "All Ages" this is the
    case as soon as the join is empty.  A cohort that is not empty there
    never gets this drawing. *)
Theorem kde_plot_empty_after_age (bm : BiomarkerTable) (lb : LabelTable) (input : Input) :
  (kde_age_cohort bm lb input = Returned [] ->
   kde_plot bm lb input = Returned no_data_drawing)
  /\ (age_group_filter input = "All Ages" ->
      merge_data_age bm lb (biomarker_x input) (heart_disease_label input) = Returned [] ->
      kde_plot bm lb input = Returned no_data_drawing)
  /\ (forall cohort, kde_age_cohort bm lb input = Returned cohort ->
      kde_plot bm lb input = Returned no_data_drawing -> cohort = [])
  /\ In (plt_text no_age_data_message) no_data_drawing
  /\ existsb is_kdeplot no_data_drawing = false.
Proof.
  split; [|split; [|split; [|split]]].
  - intros Hc. now rewrite (kde_plot_after_age _ _ _ _ Hc).
  - intros Hall Hm. rewrite <- (kde_age_cohort_all_ages _ _ _ Hall) in Hm.
    now rewrite (kde_plot_after_age _ _ _ _ Hm).
  - intros cohort Hc. rewrite (kde_plot_after_age _ _ _ _ Hc).
    destruct cohort; [reflexivity|]. simpl. discriminate.
  - simpl. tauto.
  - reflexivity.
Qed.

Lemma kde_plot_empty_after_age_witness :
  kde_plot no_subjects sample_labels (all_ages_request "Female" true)
  = Returned no_data_drawing.
Proof.
  apply (proj1 (proj2 (kde_plot_empty_after_age no_subjects sample_labels
                         (all_ages_request "Female" true)))); reflexivity.
Defined.

(** ** One cohort for the statistics and for the densities *)

(** [kde_plot] draws the densities of the cohort of the pipeline. *)
Lemma kde_plot_consumes_pipeline (bm : BiomarkerTable) (lb : LabelTable)
    (input : Input) (joined cohort : list MergedRowAge) (calls : list plot_call) :
  merge_data_age bm lb (biomarker_x input) (heart_disease_label input) = Returned joined ->
  filter_pipeline_spec input joined = Returned cohort ->
  kde_plot bm lb input = Returned calls ->
  calls = no_data_drawing \/ filter is_kdeplot calls = kde_curves cohort.
Proof.
  intros Hj Hp. unfold kde_plot, kde_age_cohort. rewrite Hj. simpl.
  unfold filter_pipeline_spec in Hp.
  destruct (age_filter_step (age_group_filter input) joined) as [after_age|e];
    simpl in *; [|discriminate].
  injection Hp as <-.
  destruct after_age as [|r rest]; simpl; intros [= <-]; [now left|].
  right. reflexivity.
Qed.

(** C1, at a request that selects the 30-40 bin on a table whose only
    subject is 25 years old: the cohort of the pipeline is empty and
    [kde_plot] reports that no data is available, while [summary_stats]
    never applies the age filter, keeps the subject in its cohort, and
    reports the statistics of the "No Disease" group on it. *)
Theorem summary_stats_skips_age_filter (student_t_sf : npfloat -> R -> R) :
  (joined <- merge_data_age young_subject young_label "Glucose" "CHD" ;;
   filter_pipeline_spec thirties_request joined) = Returned []
  /\ kde_plot young_subject young_label thirties_request = Returned no_data_drawing
  /\ summary_cohort young_subject young_label thirties_request
     = Returned [ mk_merged "Glucose" "CHD" (subject 1 1 25 (Some 5%R)) (labelled 1 0) ]
  /\ summary_stats student_t_sf young_subject young_label thirties_request
     = Returned [ GroupSection "No Disease" (stats_dict [ 5%R ]);
                  Line insufficient_message ].
Proof.
  split; [reflexivity|]. split; [reflexivity|]. split; reflexivity.
Qed.

(** ** Group statistics and the comparison *)

Lemma group_data_length (merged_data : list MergedRow) (group : string) :
  List.length (group_data merged_data group) = non_missing_count merged_data group.
Proof.
  unfold group_data, non_missing_count, has_value.
  induction merged_data as [|r rest IH]; [reflexivity|].
  simpl. destruct (label_is group r); simpl; [|exact IH].
  destruct (BiomarkerX r); simpl; now rewrite IH.
Qed.

Lemma group_data_empty_iff (merged_data : list MergedRow) (group : string) :
  group_data merged_data group = [] <-> non_missing_count merged_data group = O.
Proof.
  rewrite <- group_data_length.
  destruct (group_data merged_data group); simpl; split; congruence.
Qed.

Lemma grouped_stats_eq (merged_data : list MergedRow) :
  grouped_stats merged_data =
  ((group_entry merged_data "Disease" ++ group_entry merged_data "No Disease")%list,
   (group_section merged_data "Disease" ++ group_section merged_data "No Disease")%list).
Proof.
  unfold grouped_stats, group_step, group_entry, group_section. simpl.
  destruct (group_data merged_data "Disease");
    destruct (group_data merged_data "No Disease"); reflexivity.
Qed.

Section Comparison.

Variable student_t_sf : npfloat -> R -> R.

Lemma summary_output_str_eq (merged_data : list MergedRow) :
  summary_output_str student_t_sf merged_data =
  Returned ((group_section merged_data "Disease"
             ++ group_section merged_data "No Disease")
            ++ [ comparison_item student_t_sf merged_data ])%list.
Proof.
  unfold summary_output_str. rewrite grouped_stats_eq.
  unfold group_entry, group_section, comparison_item.
  destruct (group_data merged_data "Disease") as [|v1 x1];
    destruct (group_data merged_data "No Disease") as [|v2 x2]; reflexivity.
Qed.

Lemma summary_stats_eq (bm : BiomarkerTable) (lb : LabelTable) (input : Input)
    (merged_data : list MergedRow) :
  summary_cohort bm lb input = Returned merged_data ->
  summary_stats student_t_sf bm lb input =
  if is_empty merged_data
  then Returned [ Line no_data_message ]
  else Returned ((group_section merged_data "Disease"
                  ++ group_section merged_data "No Disease")
                 ++ [ comparison_item student_t_sf merged_data ])%list.
Proof.
  unfold summary_stats. intros ->. simpl. now rewrite summary_output_str_eq.
Qed.

Lemma group_section_In (merged_data : list MergedRow) (group g : string)
    (s : list (string * npfloat)) :
  In (GroupSection g s) (group_section merged_data group) <->
  g = group /\ s = stats_dict (group_data merged_data group)
  /\ non_missing_count merged_data group <> O.
Proof.
  unfold group_section. rewrite <- group_data_empty_iff.
  destruct (group_data merged_data group) as [|v vs]; simpl.
  - split; [tauto|]. intros (_ & _ & H). now apply H.
  - split.
    + intros [[= <- <-]|[]]. repeat split. discriminate.
    + intros (-> & -> & _). now left.
Qed.

Lemma comparison_item_not_section (merged_data : list MergedRow) (g : string)
    (s : list (string * npfloat)) :
  comparison_item student_t_sf merged_data <> GroupSection g s.
Proof.
  unfold comparison_item.
  destruct (negb _ && negb _); [|discriminate].
  destruct (hypothesis_test _ _ _) as [[t p] d]. discriminate.
Qed.

End Comparison.

Lemma group_section_only_sections (merged_data : list MergedRow) (group : string)
    (item : out_item) :
  In item (group_section merged_data group) -> exists g s, item = GroupSection g s.
Proof.
  unfold group_section. destruct (is_empty _); simpl; [tauto|].
  intros [<-|[]]. eauto.
Qed.

(** The group sections of the text of [summary_stats]. *)
Lemma section_in_output (student_t_sf : npfloat -> R -> R)
    (merged_data : list MergedRow) (g : string) (s : list (string * npfloat)) :
  In (GroupSection g s)
     ((group_section merged_data "Disease" ++ group_section merged_data "No Disease")
      ++ [ comparison_item student_t_sf merged_data ])%list
  <-> (g = "Disease" \/ g = "No Disease")
      /\ s = stats_dict (group_data merged_data g)
      /\ non_missing_count merged_data g <> O.
Proof.
  rewrite !in_app_iff, !group_section_In. simpl. split.
  - intros [[(-> & -> & H)|(-> & -> & H)]|[Hc|[]]]; try tauto.
    now apply comparison_item_not_section in Hc.
  - intros ([-> | ->] & -> & H); tauto.
Qed.

(** The comparison piece of the text of [summary_stats]. *)
Lemma comparison_in_output (student_t_sf : npfloat -> R -> R)
    (merged_data : list MergedRow) (item : out_item) :
  (forall g s, item <> GroupSection g s) ->
  In item
     ((group_section merged_data "Disease" ++ group_section merged_data "No Disease")
      ++ [ comparison_item student_t_sf merged_data ])%list
  <-> item = comparison_item student_t_sf merged_data.
Proof.
  intros Hns. rewrite !in_app_iff. simpl. split.
  - intros [[H|H]|[H|[]]]; try (now symmetry);
      apply group_section_only_sections in H as (g & s & ->); now destruct (Hns g s).
  - intros ->. right. now left.
Qed.

Lemma non_missing_count_nil (group : string) : non_missing_count [] group = O.
Proof. reflexivity. Qed.

(** C6.  In the text [summary_stats] returns, a disease-status group with
    no non-missing biomarker value has no section at all; a group with some
    has exactly the section of the six statistics computed on its values
    after [dropna], and the "Count" of that section is the number of
    rows of the group whose biomarker value is not missing. *)
Theorem group_count_is_non_missing_count (student_t_sf : npfloat -> R -> R)
    (bm : BiomarkerTable) (lb : LabelTable) (input : Input)
    (merged_data : list MergedRow) (out : list out_item) :
  summary_cohort bm lb input = Returned merged_data ->
  summary_stats student_t_sf bm lb input = Returned out ->
  forall group, In group [ "Disease"; "No Disease" ] ->
    let values := dropna (map BiomarkerX (filter (label_is group) merged_data)) in
    (non_missing_count merged_data group = O ->
     forall s, ~ In (GroupSection group s) out)
    /\ (non_missing_count merged_data group <> O ->
        In (GroupSection group (stats_dict values)) out
        /\ (forall s, In (GroupSection group s) out -> s = stats_dict values)
        /\ dict_get (stats_dict values) "Count"
           = Returned (np_of_nat (non_missing_count merged_data group))).
Proof.
  intros Hc. rewrite (summary_stats_eq student_t_sf _ _ _ _ Hc).
  destruct merged_data as [|r rest]; simpl is_empty; cbv iota; intros [= <-].
  - intros group _. simpl. split.
    + intros _ s [H|[]]. discriminate.
    + intros H. now destruct H.
  - intros group Hg values.
    assert (Hg' : group = "Disease" \/ group = "No Disease")
      by (simpl in Hg; intuition).
    split.
    + intros Hz s Hin. apply section_in_output in Hin. tauto.
    + intros Hnz. split; [|split].
      * apply section_in_output. tauto.
      * intros s Hin. apply section_in_output in Hin. tauto.
      * simpl. f_equal. unfold np_of_nat. f_equal. f_equal.
        apply group_data_length.
Qed.


(** ** NaN in the comparison *)

Lemma np_add_nan_l (b : npfloat) : np_add NaN b = NaN.
Proof. reflexivity. Qed.

Lemma np_add_nan_r (a : npfloat) : np_add a NaN = NaN.
Proof. now destruct a. Qed.

Lemma np_mul_nan_r (a : npfloat) : np_mul a NaN = NaN.
Proof. now destruct a. Qed.

Lemma np_div_nan_l (b : npfloat) : np_div NaN b = NaN.
Proof. reflexivity. Qed.

Lemma np_div_nan_r (a : npfloat) : np_div a NaN = NaN.
Proof. now destruct a. Qed.

Create Rewrite HintDb np_nan.
#[local] Hint Rewrite np_add_nan_l np_add_nan_r np_mul_nan_r np_div_nan_l np_div_nan_r
  : np_nan.

(** The sample variance of a single value is NaN. *)
Lemma np_var_single (xs : list R) :
  List.length xs = 1%nat -> np_var 1 xs = NaN.
Proof. unfold np_var. now intros ->. Qed.

Lemma ttest_ind_nan (student_t_sf : npfloat -> R -> R) (x1 x2 : list R) :
  np_var 1 x1 = NaN \/ np_var 1 x2 = NaN ->
  ttest_ind student_t_sf x1 x2 = (NaN, NaN).
Proof.
  intros H. unfold ttest_ind.
  assert (Hsum : np_add (np_div (np_var 1 x1) (np_of_nat (List.length x1)))
                        (np_div (np_var 1 x2) (np_of_nat (List.length x2))) = NaN).
  { destruct H as [-> | ->]; now autorewrite with np_nan. }
  rewrite Hsum. simpl np_sqrt. now autorewrite with np_nan.
Qed.

Lemma pooled_std_nan (x1 x2 : list R) :
  np_var 1 x1 = NaN \/ np_var 1 x2 = NaN -> pooled_std x1 x2 = NaN.
Proof.
  intros H. unfold pooled_std.
  assert (Hsum : np_add (np_mul (np_of_Z (Z.of_nat (List.length x1) - 1)) (np_var 1 x1))
                        (np_mul (np_of_Z (Z.of_nat (List.length x2) - 1)) (np_var 1 x2))
                 = NaN).
  { destruct H as [-> | ->]; now autorewrite with np_nan. }
  now rewrite Hsum.
Qed.

Lemma cohen_d_nan (x1 x2 : list R) :
  np_var 1 x1 = NaN \/ np_var 1 x2 = NaN -> cohen_d x1 x2 = NaN.
Proof.
  intros H. unfold cohen_d. now rewrite (pooled_std_nan _ _ H).
Qed.

Lemma test_stage_both (student_t_sf : npfloat -> R -> R) (x1 x2 : list R)
    (output_str : list out_item) :
  test_stage student_t_sf ([ ("Disease", x1); ("No Disease", x2) ], output_str) =
  let '(_, p_val, d) := hypothesis_test student_t_sf x1 x2 in
  Returned (output_str ++ [ TestSection p_val d ])%list.
Proof. reflexivity. Qed.

(** C9.  When a group holds exactly one non-missing value, the comparison
    returns: the test statistic, the p-value and the effect size are NaN,
    and so is the pooled standard deviation (with one value on each side
    its denominator n1 + n2 - 2 is zero); the text then ends with the test
    section of these NaN values. *)
Theorem single_value_group_gives_nan (student_t_sf : npfloat -> R -> R)
    (x1 x2 : list R) :
  x1 <> [] -> x2 <> [] ->
  List.length x1 = 1%nat \/ List.length x2 = 1%nat ->
  hypothesis_test student_t_sf x1 x2 = (NaN, NaN, NaN)
  /\ pooled_std x1 x2 = NaN
  /\ test_stage student_t_sf ([ ("Disease", x1); ("No Disease", x2) ], [])
     = Returned [ TestSection NaN NaN ].
Proof.
  intros _ _ H.
  assert (Hv : np_var 1 x1 = NaN \/ np_var 1 x2 = NaN)
    by (destruct H; [left | right]; now apply np_var_single).
  assert (Hh : hypothesis_test student_t_sf x1 x2 = (NaN, NaN, NaN)).
  { unfold hypothesis_test.
    now rewrite (ttest_ind_nan _ _ _ Hv), (cohen_d_nan _ _ Hv). }
  split; [exact Hh|]. split; [now apply pooled_std_nan|].
  rewrite test_stage_both. now rewrite Hh.
Qed.

Lemma single_value_group_gives_nan_witness :
  hypothesis_test (fun _ _ => 0%R) [ 10%R ] [ 20%R ] = (NaN, NaN, NaN)
  /\ pooled_std [ 10%R ] [ 20%R ] = NaN
  /\ test_stage (fun _ _ => 0%R) ([ ("Disease", [ 10%R ]); ("No Disease", [ 20%R ]) ], [])
     = Returned [ TestSection NaN NaN ].
Proof.
  apply (single_value_group_gives_nan (fun _ _ => 0%R) [ 10%R ] [ 20%R ]).
  - discriminate.
  - discriminate.
  - left. reflexivity.
Defined.

(** ** The sign of the effect size *)













(** ** Three subjects, one missing value *)

Lemma scenario_summary_cohort :
  summary_cohort sample_biomarkers scenario_labels (all_ages_request "All" false)
  = Returned scenario_cohort.
Proof. reflexivity. Qed.

Lemma group_count_is_non_missing_count_witness :
  exists out,
    summary_stats (fun _ _ => 0%R) sample_biomarkers scenario_labels
                  (all_ages_request "All" false) = Returned out
    /\ In (GroupSection "Disease" (stats_dict [ 10%R ])) out
    /\ dict_get (stats_dict [ 10%R ]) "Count" = Returned (np_of_nat 1).
Proof.
  pose proof (summary_stats_eq (fun _ _ => 0%R) _ _ _ _ scenario_summary_cohort) as Hout.
  simpl is_empty in Hout. cbv iota in Hout.
  eexists. split; [exact Hout|].
  destruct (group_count_is_non_missing_count (fun _ _ => 0%R) sample_biomarkers
              scenario_labels (all_ages_request "All" false) scenario_cohort _
              scenario_summary_cohort Hout "Disease" (or_introl eq_refl))
    as [_ Hsome].
  destruct Hsome as (Hin & _ & Hcount).
  - simpl. discriminate.
  - split; [exact Hin | exact Hcount].
Defined.


(** ** Empty cohorts *)

(** C7 as stated fails in [kde_plot]: with "All Ages" and the gender
    filter "Male" on a table whose only subject is a woman, the cohort of
    the pipeline is empty, and the drawing is the regular figure, with two
    density calls and without any message. *)
Lemma cohort_emptied_by_gender_has_no_message :
  (joined <- merge_data_age female_only female_label "Glucose" "CHD" ;;
   filter_pipeline_spec (all_ages_request "Male" false) joined) = Returned []
  /\ exists calls,
       kde_plot female_only female_label (all_ages_request "Male" false) = Returned calls
       /\ calls <> no_data_drawing
       /\ existsb is_text calls = false
       /\ filter is_kdeplot calls
          = [ sns_kdeplot [] "Disease"; sns_kdeplot [] "No Disease" ].
Proof.
  split; [reflexivity|]. eexists. split; [reflexivity|].
  split; [discriminate|]. split; reflexivity.
Qed.

Lemma kde_curves_nil :
  kde_curves [] = [ sns_kdeplot [] "Disease"; sns_kdeplot [] "No Disease" ].
Proof. reflexivity. Qed.

(** C7, amended.  For a request whose column names are pairwise
    distinct, [summary_stats] returns the "No data available" message
    whenever the cohort it consumes (join, disease filter, gender filter)
    is empty; for any request, that message is what it returns on an empty
    cohort if it returns, the statistics stage having reported no group and
    the test stage the "insufficient data" line.  [kde_plot] returns the
    "No data available for selected age group." drawing whenever the
    cohort is empty right after the age step; when the disease or gender
    filter empties it later and [kde_plot] returns, the regular figure was
    drawn, without any message, and each density call received an empty
    series. *)
Theorem empty_cohort_outcomes (student_t_sf : npfloat -> R -> R)
    (bm : BiomarkerTable) (lb : LabelTable) (input : Input) :
  (distinct_columns [ biomarker_x input ] (heart_disease_label input) ->
   summary_cohort bm lb input = Returned [] ->
   summary_stats student_t_sf bm lb input = Returned [ Line no_data_message ])
  /\ (forall out,
         summary_cohort bm lb input = Returned [] ->
         summary_stats student_t_sf bm lb input = Returned out ->
         out = [ Line no_data_message ]
         /\ grouped_stats [] = ([], [])
         /\ summary_output_str student_t_sf [] = Returned [ Line insufficient_message ])
  /\ (kde_age_cohort bm lb input = Returned [] ->
      kde_plot bm lb input = Returned no_data_drawing)
  /\ (forall cohort calls,
         kde_age_cohort bm lb input = Returned cohort ->
         cohort <> [] ->
         kde_filters input cohort = [] ->
         kde_plot bm lb input = Returned calls ->
         calls = density_drawing input []
         /\ existsb is_text calls = false
         /\ filter is_kdeplot calls
            = [ sns_kdeplot [] "Disease"; sns_kdeplot [] "No Disease" ]).
Proof.
  split; [|split; [|split]].
  - intros _ Hc. now rewrite (summary_stats_eq _ _ _ _ _ Hc).
  - intros out Hc. rewrite (summary_stats_eq _ _ _ _ _ Hc). simpl.
    intros [= <-]. repeat split.
  - intros Hc. now rewrite (kde_plot_after_age _ _ _ _ Hc).
  - intros cohort calls Hc Hne Hf. rewrite (kde_plot_after_age _ _ _ _ Hc).
    destruct cohort as [|r rest]; [now destruct Hne|].
    simpl is_empty. cbv iota. rewrite Hf. intros [= <-]. repeat split.
Qed.

Lemma empty_cohort_outcomes_witness :
  summary_stats (fun _ _ => 0%R) female_only female_label (all_ages_request "Male" false)
  = Returned [ Line no_data_message ]
  /\ kde_plot young_subject young_label thirties_request = Returned no_data_drawing
  /\ filter is_kdeplot (density_drawing (all_ages_request "Male" false) [])
     = [ sns_kdeplot [] "Disease"; sns_kdeplot [] "No Disease" ].
Proof.
  pose proof (empty_cohort_outcomes (fun _ _ => 0%R) female_only female_label
                (all_ages_request "Male" false)) as (Hs & _ & _ & Hk).
  pose proof (empty_cohort_outcomes (fun _ _ => 0%R) young_subject young_label
                thirties_request) as (_ & _ & Ha & _).
  split; [|split].
  - apply Hs; [distinct_names | reflexivity].
  - apply Ha. reflexivity.
  - destruct (Hk [ mk_merged_age "Glucose" "CHD" (subject 2 2 35 (Some 20%R)) (labelled 2 0) ]
                (density_drawing (all_ages_request "Male" false) []))
      as (_ & _ & Hcalls).
    + reflexivity.
    + discriminate.
    + reflexivity.
    + reflexivity.
    + exact Hcalls.
Defined.

(** ** The same biomarker on both axes *)

(** C8 as stated fails: [regression_plot] does not return the error to its
    caller as a value, it raises [ValueError]. *)
Lemma same_biomarker_error_is_raised :
  ShinyApp.regression_plot sample_biomarkers scenario_labels same_axes_request
  = Raised (ValueError ShinyApp.same_biomarker_message)
  /\ forall calls,
       ShinyApp.regression_plot sample_biomarkers scenario_labels same_axes_request
       <> Returned calls.
Proof.
  split; [reflexivity|]. intros calls. discriminate.
Qed.

(** C8, amended.  When the same biomarker is selected for both axes,
    [regression_plot] raises [ValueError] with the message "Please select
    different biomarkers for X and Y axes.", whatever the tables hold (so
    before the join, which would raise [KeyError] on a missing column, and
    without any drawing call); the exception reaches the caller as an
    exception.  With two different biomarkers no [ValueError] is raised. *)
Theorem same_biomarker_raises_before_join (bm : BiomarkerTable) (lb : LabelTable)
    (input : ShinyApp.Input) :
  (ShinyApp.biomarker_x input = ShinyApp.biomarker_y input ->
   ShinyApp.regression_plot bm lb input
   = Raised (ValueError ShinyApp.same_biomarker_message))
  /\ (forall msg,
         ShinyApp.regression_plot bm lb input = Raised (ValueError msg) ->
         ShinyApp.biomarker_x input = ShinyApp.biomarker_y input).
Proof.
  unfold ShinyApp.regression_plot. split.
  - intros E. destruct (string_dec _ _) as [_|N]; [reflexivity | now destruct N].
  - intros msg. destruct (string_dec _ _) as [E|_]; [intros _; exact E|].
    unfold merge_data_xy.
    destruct (require_columns_cases (bm_columns bm)
                [ShinyApp.biomarker_x input; ShinyApp.biomarker_y input])
      as [-> | [missing ->]]; simpl; [|discriminate].
    destruct (require_columns_cases (lb_columns lb) [ShinyApp.heart_disease_label input])
      as [-> | [missing ->]]; simpl; discriminate.
Qed.

Lemma same_biomarker_raises_before_join_witness :
  ShinyApp.regression_plot no_columns scenario_labels same_axes_request
  = Raised (ValueError ShinyApp.same_biomarker_message).
Proof.
  apply (proj1 (same_biomarker_raises_before_join no_columns scenario_labels
                  same_axes_request)).
  reflexivity.
Defined.

(** * Further properties *)

(** ** Dictionaries *)

Section Dict.

Context {V : Type}.
Implicit Types (d : list (string * V)) (k : string) (v : V).

Lemma dict_get_set_same d k v : dict_get (dict_set d k v) k = Returned v.
Proof.
  induction d as [|[k' v'] d IH]; simpl.
  - destruct (string_dec k k); [reflexivity | contradiction].
  - destruct (string_dec k' k) as [->|N]; simpl.
    + destruct (string_dec k k); [reflexivity | contradiction].
    + destruct (string_dec k' k); [contradiction | exact IH].
Qed.

Lemma dict_get_set_other d k k' v :
  k' <> k -> dict_get (dict_set d k v) k' = dict_get d k'.
Proof.
  intros Hne. induction d as [|[k0 v0] d IH]; simpl.
  - destruct (string_dec k k'); [congruence | reflexivity].
  - destruct (string_dec k0 k) as [->|N]; simpl.
    + destruct (string_dec k k'); [congruence | reflexivity].
    + destruct (string_dec k0 k'); [reflexivity | exact IH].
Qed.

Lemma dict_get_absent d k :
  ~ In k (keys d) -> dict_get d k = Raised (KeyError k).
Proof.
  induction d as [|[k' v'] d IH]; simpl; intros Hn; [reflexivity|].
  destruct (string_dec k' k) as [->|N]; [tauto|]. apply IH. tauto.
Qed.

Lemma dict_pop_keys d k k' : In k' (keys (dict_pop d k)) -> In k' (keys d).
Proof.
  induction d as [|[k0 v0] d IH]; simpl; [tauto|].
  destruct (string_dec k0 k); simpl; tauto.
Qed.

Lemma dict_pop_nodup d k : NoDup (keys d) -> NoDup (keys (dict_pop d k)).
Proof.
  induction d as [|[k0 v0] d IH]; simpl; intros Hnd; [constructor|].
  inversion Hnd as [|? ? Hnotin Hnd']; subst.
  destruct (string_dec k0 k); [assumption|]. simpl. constructor.
  - intros Hin. apply Hnotin. now apply dict_pop_keys in Hin.
  - now apply IH.
Qed.

Lemma dict_get_pop_same d k :
  NoDup (keys d) -> dict_get (dict_pop d k) k = Raised (KeyError k).
Proof.
  induction d as [|[k0 v0] d IH]; simpl; intros Hnd; [reflexivity|].
  inversion Hnd as [|? ? Hnotin Hnd']; subst.
  destruct (string_dec k0 k) as [->|N].
  - now apply dict_get_absent.
  - simpl. destruct (string_dec k0 k); [contradiction | now apply IH].
Qed.

Lemma dict_get_pop_other d k k' :
  k' <> k -> dict_get (dict_pop d k) k' = dict_get d k'.
Proof.
  intros Hne. induction d as [|[k0 v0] d IH]; simpl; [reflexivity|].
  destruct (string_dec k0 k) as [->|N]; simpl.
  - destruct (string_dec k k'); [congruence | reflexivity].
  - destruct (string_dec k0 k'); [reflexivity | exact IH].
Qed.

Lemma dict_set_keys d k v k' :
  In k' (keys (dict_set d k v)) -> k' = k \/ In k' (keys d).
Proof.
  induction d as [|[k0 v0] d IH]; simpl.
  - intuition.
  - destruct (string_dec k0 k) as [->|N]; simpl; intuition.
Qed.

Lemma dict_set_nodup d k v : NoDup (keys d) -> NoDup (keys (dict_set d k v)).
Proof.
  induction d as [|[k0 v0] d IH]; simpl; intros Hnd.
  - constructor; [simpl; tauto | constructor].
  - inversion Hnd as [|? ? Hnotin Hnd']; subst.
    destruct (string_dec k0 k) as [->|N]; simpl.
    + now constructor.
    + constructor; [|now apply IH].
      intros Hin. apply dict_set_keys in Hin as [->|Hin]; tauto.
Qed.

Lemma fold_dict_set_nodup (rows : list (string * V)) d :
  NoDup (keys d) ->
  NoDup (keys (fold_left (fun d kv => dict_set d (fst kv) (snd kv)) rows d)).
Proof.
  revert d. induction rows as [|[k v] rows IH]; simpl; intros d Hnd; [assumption|].
  apply IH. now apply dict_set_nodup.
Qed.

Lemma dict_of_rows_nodup (rows : list (string * V)) : NoDup (keys (dict_of_rows rows)).
Proof. apply fold_dict_set_nodup. constructor. Qed.

Lemma fold_dict_set_get (rows : list (string * V)) d (acc : option V) c :
  (match acc with Some v => Returned v | None => Raised (KeyError c) end = dict_get d c) ->
  dict_get (fold_left (fun d kv => dict_set d (fst kv) (snd kv)) rows d) c =
  match fold_left (fun acc kv => if string_dec (fst kv) c then Some (snd kv) else acc)
                  rows acc with
  | Some v => Returned v
  | None => Raised (KeyError c)
  end.
Proof.
  revert d acc. induction rows as [|[k v] rows IH]; simpl; intros d acc Hacc.
  - now symmetry.
  - apply IH. destruct (string_dec k c) as [->|N].
    + now rewrite dict_get_set_same.
    + rewrite dict_get_set_other by congruence. exact Hacc.
Qed.

(** Looking a name up in [dict(zip(names, values))] gives the value of
    the last row with that name. *)
Lemma dict_of_rows_get (rows : list (string * V)) c :
  dict_get (dict_of_rows rows) c =
  match last_description rows c with
  | Some v => Returned v
  | None => Raised (KeyError c)
  end.
Proof. apply fold_dict_set_get. reflexivity. Qed.

End Dict.

(** ** Loading: the renaming of the columns *)

Lemma rename_protected_column (nhanes_dict : list (string * string)) (c : string) :
  In c protected_columns -> rename_column (label_mapping nhanes_dict) c = c.
Proof.
  pose proof (dict_of_rows_nodup nhanes_dict) as Hnd.
  unfold rename_column, label_mapping. simpl.
  intros [<-|[<-|[<-|[]]]].
  - rewrite !dict_get_pop_other by discriminate.
    now rewrite dict_get_pop_same.
  - rewrite dict_get_pop_other by discriminate.
    now rewrite dict_get_pop_same by now apply dict_pop_nodup.
  - now rewrite dict_get_pop_same by now do 2 apply dict_pop_nodup.
Qed.

Lemma rename_other_column (nhanes_dict : list (string * string)) (c : string) :
  ~ In c protected_columns ->
  rename_column (label_mapping nhanes_dict) c =
  match last_description nhanes_dict c with Some v => v | None => c end.
Proof.
  intros Hn. unfold rename_column, label_mapping. simpl in Hn.
  rewrite !dict_get_pop_other by (intros ->; tauto).
  rewrite dict_of_rows_get. now destruct (last_description nhanes_dict c).
Qed.

Lemma has_column_In (cols : list string) (name : string) :
  has_column cols name = true <-> In name cols.
Proof.
  unfold has_column. destruct (in_dec string_dec name cols); split;
    intros; try assumption; try reflexivity; try discriminate; contradiction.
Qed.

(** X1.  When RIAGENDR is a column of the biomarker file, loading returns:
    the table keeps its number of columns, and SEQN, RIAGENDR and RIDAGEYR
    keep their names and their places, whatever the dictionary table says
    about them. *)
Theorem protected_columns_survive_loading (nhanes_dict : list (string * string))
    (columns : list string) :
  In "RIAGENDR" columns ->
  exists renamed,
    load_columns nhanes_dict columns = Returned renamed
    /\ List.length renamed = List.length columns
    /\ forall i c, In c protected_columns ->
         nth_error columns i = Some c -> nth_error renamed i = Some c.
Proof.
  intros Hin. exists (rename_columns (label_mapping nhanes_dict) columns).
  assert (Hkeep : forall i c, In c protected_columns ->
             nth_error columns i = Some c ->
             nth_error (rename_columns (label_mapping nhanes_dict) columns) i = Some c).
  { intros i c Hc Hi. unfold rename_columns. rewrite nth_error_map, Hi. simpl.
    now rewrite rename_protected_column. }
  split; [|split].
  - unfold load_columns.
    assert (Hg : has_column (rename_columns (label_mapping nhanes_dict) columns)
                   "RIAGENDR" = true).
    { apply has_column_In. apply In_nth_error in Hin as [i Hi].
      eapply nth_error_In. apply (Hkeep i); [simpl; tauto | exact Hi]. }
    now rewrite Hg.
  - apply length_map.
  - exact Hkeep.
Qed.

Lemma protected_columns_survive_loading_witness :
  exists renamed,
    load_columns [ ("RIAGENDR", "Gender"); ("LBXGLU", "Glucose") ]
                 [ "SEQN"; "LBXGLU"; "RIAGENDR"; "RIDAGEYR" ] = Returned renamed
    /\ List.length renamed = 4%nat
    /\ forall i c, In c protected_columns ->
         nth_error [ "SEQN"; "LBXGLU"; "RIAGENDR"; "RIDAGEYR" ] i = Some c ->
         nth_error renamed i = Some c.
Proof.
  apply (protected_columns_survive_loading
           [ ("RIAGENDR", "Gender"); ("LBXGLU", "Glucose") ]
           [ "SEQN"; "LBXGLU"; "RIAGENDR"; "RIDAGEYR" ]).
  simpl. tauto.
Defined.

(** X2.  After loading, a column other than SEQN, RIAGENDR and RIDAGEYR
    bears the description of the last row of the dictionary table that
    names it, and its own name when no row names it. *)
Theorem columns_take_last_description (nhanes_dict : list (string * string))
    (columns renamed : list string) (i : nat) (c : string) :
  load_columns nhanes_dict columns = Returned renamed ->
  nth_error columns i = Some c ->
  ~ In c protected_columns ->
  nth_error renamed i =
  Some (match last_description nhanes_dict c with Some v => v | None => c end).
Proof.
  unfold load_columns. destruct (has_column _ _); [|discriminate].
  intros [= <-] Hi Hn. unfold rename_columns. rewrite nth_error_map, Hi. simpl.
  now rewrite rename_other_column.
Qed.

Lemma columns_take_last_description_witness :
  nth_error [ "SEQN"; "Glucose, serum"; "RIAGENDR" ] 1 = Some "Glucose, serum".
Proof.
  apply (columns_take_last_description
           [ ("LBXGLU", "Glucose"); ("LBXGLU", "Glucose, serum") ]
           [ "SEQN"; "LBXGLU"; "RIAGENDR" ]
           [ "SEQN"; "Glucose, serum"; "RIAGENDR" ] 1 "LBXGLU").
  - reflexivity.
  - reflexivity.
  - simpl. intros [H|[H|[H|[]]]]; discriminate.
Defined.

(** X3.  [ShinyApp/apptest.py] does not take RIDAGEYR out of the mapping:
    when the dictionary table describes RIDAGEYR, its loading renames the
    age column to that description, while the loading of [apptest.py]
    leaves the column under the name [kde_plot] selects it by. *)
Theorem shiny_loading_renames_age_column (nhanes_dict : list (string * string))
    (columns renamed : list string) (i : nat) (description : string) :
  last_description nhanes_dict "RIDAGEYR" = Some description ->
  ShinyApp.load_columns nhanes_dict columns = Returned renamed ->
  nth_error columns i = Some "RIDAGEYR" ->
  nth_error renamed i = Some description
  /\ nth_error (rename_columns (label_mapping nhanes_dict) columns) i = Some "RIDAGEYR".
Proof.
  intros Hd Hl Hi. split.
  - unfold ShinyApp.load_columns in Hl. destruct (has_column _ _); [|discriminate].
    injection Hl as <-. unfold rename_columns. rewrite nth_error_map, Hi. simpl.
    unfold rename_column, ShinyApp.label_mapping.
    rewrite !dict_get_pop_other by discriminate.
    now rewrite dict_of_rows_get, Hd.
  - unfold rename_columns. rewrite nth_error_map, Hi. simpl.
    rewrite rename_protected_column; [reflexivity | simpl; tauto].
Qed.

Lemma shiny_loading_renames_age_column_witness :
  nth_error [ "SEQN"; "RIAGENDR"; "Age in years" ] 2 = Some "Age in years"
  /\ nth_error (rename_columns (label_mapping [ ("RIDAGEYR", "Age in years") ])
                  [ "SEQN"; "RIAGENDR"; "RIDAGEYR" ]) 2 = Some "RIDAGEYR".
Proof.
  apply (shiny_loading_renames_age_column [ ("RIDAGEYR", "Age in years") ]
           [ "SEQN"; "RIAGENDR"; "RIDAGEYR" ]
           [ "SEQN"; "RIAGENDR"; "Age in years" ] 2 "Age in years");
    reflexivity.
Defined.

(** ** The join, again *)

Section JoinKeys.

Context {A B C : Type}.
Variables (lkey : A -> Z) (rkey : B -> Z) (mk : A -> B -> C) (ckey : C -> Z).
Hypothesis ckey_mk : forall l r, ckey (mk l r) = lkey l.

Lemma pd_merge_keys_left (left : list A) (right : list B) (k : Z) :
  In k (map ckey (pd_merge lkey rkey mk left right)) -> In k (map lkey left).
Proof.
  intros Hin. apply in_map_iff in Hin as (c & <- & Hc).
  apply pd_merge_In in Hc as (l & r & Hl & _ & _ & ->).
  rewrite ckey_mk. now apply in_map.
Qed.

(** With distinct keys on both sides, the keys of the join are distinct. *)
Lemma pd_merge_keys_nodup (left : list A) (right : list B) :
  NoDup (map lkey left) -> NoDup (map rkey right) ->
  NoDup (map ckey (pd_merge lkey rkey mk left right)).
Proof.
  intros Hl Hr. induction left as [|l left IH]; [constructor|].
  inversion Hl as [|? ? Hnotin Hl']; subst.
  rewrite pd_merge_cons, map_app. apply NoDup_app.
  - pose proof (matches_at_most_one rkey (lkey l) right Hr) as Hone.
    destruct (filter (fun r => rkey r =? lkey l) right) as [|r [|r' rest]];
      simpl in *; [constructor | | lia].
    constructor; [simpl; tauto | constructor].
  - now apply IH.
  - intros k Hk Hk'. apply pd_merge_keys_left in Hk'.
    apply in_map_iff in Hk as (c & <- & Hc).
    apply in_map_iff in Hc as (r & <- & _). rewrite ckey_mk in Hk'. tauto.
Qed.

End JoinKeys.

Lemma pd_merge_map {A B C D : Type} (lkey : A -> Z) (rkey : B -> Z)
    (mk : A -> B -> C) (f : C -> D) (left : list A) (right : list B) :
  map f (pd_merge lkey rkey mk left right) =
  pd_merge lkey rkey (fun l r => f (mk l r)) left right.
Proof.
  induction left as [|l left IH]; [reflexivity|].
  rewrite !pd_merge_cons, map_app, map_map, IH. reflexivity.
Qed.

(** X4.  The joined cohort holds exactly the pairs of a biomarker row and a
    label row with the same subject identifier: no matched subject is left
    out (every identifier of both tables is in the cohort), and the two
    identifier columns of a joined row agree. *)
Theorem joined_cohort_is_exactly_the_matches (bm : BiomarkerTable) (lb : LabelTable)
    (x label : string) (merged : list MergedRowAge) :
  merge_data_age bm lb x label = Returned merged ->
  (forall r, In r merged <->
     exists b l, In b (bm_rows bm) /\ In l (lb_rows lb)
                 /\ id_client l = SEQN b /\ r = mk_merged_age x label b l)
  /\ (forall r, In r merged -> m_id_client (row r) = m_SEQN (row r))
  /\ (forall id, In id (map SEQN (bm_rows bm)) -> In id (map id_client (lb_rows lb)) ->
        In id (map (fun r => m_SEQN (row r)) merged)).
Proof.
  intros Hm. apply merge_data_age_returns in Hm. subst merged.
  split; [|split].
  - intros r. apply pd_merge_In.
  - intros r Hr. apply pd_merge_In in Hr as (b & l & _ & _ & Hk & ->). exact Hk.
  - intros id Hb Hl.
    apply in_map_iff in Hb as (b & <- & Hb). apply in_map_iff in Hl as (l & Hk & Hl).
    apply in_map_iff. exists (mk_merged_age x label b l). split; [reflexivity|].
    apply pd_merge_In. now exists b, l.
Qed.

Lemma joined_cohort_is_exactly_the_matches_witness :
  In 2 (map (fun r => m_SEQN (row r))
          (pd_merge SEQN id_client (mk_merged_age "Glucose" "CHD")
             (bm_rows sample_biomarkers) (lb_rows sample_labels))).
Proof.
  apply (proj2 (proj2 (joined_cohort_is_exactly_the_matches sample_biomarkers
                         sample_labels "Glucose" "CHD" _ eq_refl)) 2).
  - simpl. tauto.
  - simpl. tauto.
Defined.

(** X5.  When the subject identifiers are unique within each table, they
    are unique within the joined cohort: no subject is counted twice. *)
Theorem joined_cohort_has_unique_subjects (bm : BiomarkerTable) (lb : LabelTable)
    (x label : string) (merged : list MergedRowAge) :
  NoDup (map SEQN (bm_rows bm)) ->
  NoDup (map id_client (lb_rows lb)) ->
  merge_data_age bm lb x label = Returned merged ->
  NoDup (map (fun r => m_SEQN (row r)) merged).
Proof.
  intros Hbm Hlb Hm. apply merge_data_age_returns in Hm. subst merged.
  apply pd_merge_keys_nodup; [reflexivity | assumption | assumption].
Qed.

Lemma joined_cohort_has_unique_subjects_witness :
  NoDup (map (fun r => m_SEQN (row r))
           (pd_merge SEQN id_client (mk_merged_age "Glucose" "CHD")
              (bm_rows sample_biomarkers) (lb_rows sample_labels))).
Proof.
  apply (joined_cohort_has_unique_subjects sample_biomarkers sample_labels
           "Glucose" "CHD").
  - simpl. repeat constructor; simpl; intuition discriminate.
  - simpl. repeat constructor; simpl; intuition discriminate.
  - reflexivity.
Defined.

(** ** The filters, again *)

Lemma filter_twice {T : Type} (p q : T -> bool) (xs : list T) :
  filter p (filter q xs) = filter (fun x => q x && p x) xs.
Proof.
  induction xs as [|x xs IH]; [reflexivity|].
  simpl. destruct (q x); simpl; [destruct (p x)|]; now rewrite IH.
Qed.

Lemma disease_filter_selects {T : Type} (get : T -> MergedRow) (b : bool) (xs : list T) :
  disease_filter get b xs = filter (fun r => disease_keeps b (get r)) xs.
Proof.
  unfold disease_filter, disease_keeps. destruct b; simpl; [reflexivity|].
  now rewrite filter_true.
Qed.

Lemma gender_filter_selects {T : Type} (get : T -> MergedRow) (g : string) (xs : list T) :
  gender_filter_step get g xs = filter (fun r => gender_keeps g (get r)) xs.
Proof.
  unfold gender_filter_step, gender_keeps.
  destruct (string_dec g "Male"); [reflexivity|].
  destruct (string_dec g "Female"); [reflexivity|].
  now rewrite filter_true.
Qed.

Lemma kde_filters_select (input : Input) (cohort : list MergedRowAge) :
  kde_filters input cohort =
  filter (fun r => disease_keeps (filter_heart_disease input) (row r)
                   && gender_keeps (gender_filter input) (row r)) cohort.
Proof.
  unfold kde_filters.
  now rewrite gender_filter_selects, disease_filter_selects, filter_twice.
Qed.

(** X6.  The disease filter and the gender filter of [kde_plot] select the
    rows that satisfy both conditions (indicator 1 when the box is ticked;
    gender code 1 for "Male", 2 for "Female", any code for another
    entry); the rows keep their order, and filtering a second time changes
    nothing. *)
Theorem disease_and_gender_filters_select (input : Input)
    (cohort : list MergedRowAge) :
  (forall r, In r (kde_filters input cohort) <->
     In r cohort
     /\ (filter_heart_disease input = true -> HeartDisease (row r) = 1)
     /\ (gender_filter input = "Male" -> Gender (row r) = 1)
     /\ (gender_filter input = "Female" -> Gender (row r) = 2))
  /\ kde_filters input (kde_filters input cohort) = kde_filters input cohort
  /\ exists keep, kde_filters input cohort = filter keep cohort.
Proof.
  split; [|split].
  - intros r. rewrite kde_filters_select, filter_In, andb_true_iff.
    unfold disease_keeps, gender_keeps.
    destruct (filter_heart_disease input); simpl;
      destruct (string_dec (gender_filter input) "Male") as [Em|Em];
      [|destruct (string_dec (gender_filter input) "Female") as [Ef|Ef]
       | |destruct (string_dec (gender_filter input) "Female") as [Ef|Ef]];
      rewrite ?Z.eqb_eq; try rewrite Em; try rewrite Ef;
      intuition (try discriminate; try congruence).
  - rewrite !kde_filters_select, filter_twice. apply filter_ext.
    intros r. now destruct (disease_keeps _ _ && gender_keeps _ _).
  - eexists. apply kde_filters_select.
Qed.

(** X7.  The three filters may run in any order: the age step after the
    disease and gender filters returns what the disease and gender filters
    return after the age step, namely the rows of the joined cohort that
    pass the three conditions. *)
Theorem filters_commute (input : Input) (choice : string) (low high : Z)
    (joined : list MergedRowAge) :
  In (choice, (low, high)) age_bins ->
  age_group_filter input = choice ->
  filter_pipeline_spec input joined
  = Returned (filter (fun r => in_age_range low high r
                               && (disease_keeps (filter_heart_disease input) (row r)
                                   && gender_keeps (gender_filter input) (row r)))
                     joined)
  /\ age_filter_step choice (kde_filters input joined) = filter_pipeline_spec input joined.
Proof.
  intros Hbin Hc.
  assert (Hp : filter_pipeline_spec input joined
               = Returned (kde_filters input (filter (in_age_range low high) joined))).
  { unfold filter_pipeline_spec. rewrite Hc, (age_filter_step_bin _ _ _ _ Hbin).
    reflexivity. }
  split.
  - rewrite Hp, kde_filters_select, filter_twice. reflexivity.
  - rewrite Hp, (age_filter_step_bin _ _ _ _ Hbin), !kde_filters_select, !filter_twice.
    f_equal. apply filter_ext. intros r.
    now destruct (in_age_range low high r), (disease_keeps _ _ && gender_keeps _ _).
Qed.

Lemma filters_commute_witness :
  age_filter_step "30–40" (kde_filters thirties_request [ aged 25; aged 35 ])
  = filter_pipeline_spec thirties_request [ aged 25; aged 35 ].
Proof.
  apply (proj2 (filters_commute thirties_request "30–40" 30 40 [ aged 25; aged 35 ]
                  (or_intror (or_introl eq_refl)) eq_refl)).
Defined.

(** ** The entries of the age selector *)

Lemma dict_get_present {V : Type} (d : list (string * V)) (k : string) :
  In k (keys d) -> exists v, dict_get d k = Returned v.
Proof.
  induction d as [|[k' v'] d IH]; simpl; [tauto|].
  destruct (string_dec k' k) as [->|N]; [eauto|]. intros [H|H]; [tauto | auto].
Qed.

Lemma age_step_accepts_its_entries_aux (age_group_filter : string)
    (merged_data : list MergedRowAge) :
  (In (replace "–" "-" age_group_filter) age_entries ->
   exists keep, age_filter_step age_group_filter merged_data
                = Returned (filter keep merged_data))
  /\ (~ In (replace "–" "-" age_group_filter) age_entries ->
      age_filter_step age_group_filter merged_data
      = Raised (KeyError (replace "–" "-" age_group_filter))).
Proof.
  unfold age_filter_step. split.
  - intros Hin.
    destruct (string_dec (replace "–" "-" age_group_filter) "All Ages") as [_|N].
    + exists (fun _ => true). now rewrite filter_true.
    + destruct Hin as [H|Hin]; [congruence|].
      apply (dict_get_present age_bounds) in Hin as [[low high] ->].
      simpl. eauto.
  - intros Hn.
    destruct (string_dec (replace "–" "-" age_group_filter) "All Ages") as [E|_].
    + exfalso. apply Hn. left. now symmetry.
    + rewrite dict_get_absent; [reflexivity|]. intros Hin. apply Hn. now right.
Qed.

(** X8.  The age step returns exactly when its entry, the en dash turned
    into a hyphen, is "All Ages" or one of the six keys of [age_bounds],
    and then it keeps rows of its input in their order; on any other entry
    it raises [KeyError] with that entry. *)
Theorem age_step_accepts_its_entries (age_group_filter : string)
    (merged_data : list MergedRowAge) :
  let entry := replace "–" "-" age_group_filter in
  (In entry age_entries ->
   exists keep, age_filter_step age_group_filter merged_data
                = Returned (filter keep merged_data))
  /\ (~ In entry age_entries ->
      age_filter_step age_group_filter merged_data = Raised (KeyError entry)).
Proof. exact (age_step_accepts_its_entries_aux age_group_filter merged_data). Qed.

Lemma age_step_accepts_its_entries_witness :
  (exists keep, age_filter_step "60-70" [ aged 65 ] = Returned (filter keep [ aged 65 ]))
  /\ age_filter_step "80+" [ aged 65 ] = Raised (KeyError "80+").
Proof.
  split.
  - apply (proj1 (age_step_accepts_its_entries "60-70" [ aged 65 ])).
    simpl. tauto.
  - apply (proj2 (age_step_accepts_its_entries "80+" [ aged 65 ])).
    simpl. intros [H|[H|[H|[H|[H|[H|[H|[]]]]]]]]; discriminate.
Defined.

Lemma age_step_single (choice : string) (low high : Z) (r : MergedRowAge) :
  In (choice, (low, high)) age_bins ->
  age_filter_step choice [ r ]
  = Returned (if in_age_range low high r then [ r ] else []).
Proof. intros H. now rewrite (age_filter_step_bin _ _ _ _ H). Qed.

Lemma in_age_range_false (low high : Z) (r : MergedRowAge) :
  ~ (low <= m_RIDAGEYR r < high) -> in_age_range low high r = false.
Proof.
  destruct (in_age_range low high r) eqn:E; [|reflexivity].
  apply in_age_range_spec in E. tauto.
Qed.

(** The age step on one row, for whichever of the six bins the entry is. *)
Ltac age_step_of_bin r :=
  first [ rewrite (age_step_single _ 20 30 r) by (simpl; tauto)
        | rewrite (age_step_single _ 30 40 r) by (simpl; tauto)
        | rewrite (age_step_single _ 40 50 r) by (simpl; tauto)
        | rewrite (age_step_single _ 50 60 r) by (simpl; tauto)
        | rewrite (age_step_single _ 60 70 r) by (simpl; tauto)
        | rewrite (age_step_single _ 70 80 r) by (simpl; tauto) ].

Ltac row_kept r :=
  age_step_of_bin r; rewrite (proj2 (in_age_range_spec _ _ r)) by lia; reflexivity.

Ltac row_dropped r :=
  age_step_of_bin r; rewrite (in_age_range_false _ _ r) by lia; reflexivity.

Ltac only_bin r choice :=
  exists choice; split; [simpl; tauto|]; split;
  [ row_kept r
  | let c := fresh "c" in
    let Hc := fresh "Hc" in
    let Hne := fresh "Hne" in
    intros c Hc Hne; simpl in Hc;
    repeat (destruct Hc as [Hc|Hc];
            [subst c; first [ now destruct Hne | row_dropped r ]|]);
    contradiction ].

(** X9.  The six bins cut the ages from 20 to 79 into decades: a row of
    such an age is kept by one bin and dropped by the five others; a row
    younger than 20, or aged 80 and more, is dropped by every bin and is
    seen under "All Ages" only. *)
Theorem every_age_has_at_most_one_bin (r : MergedRowAge) :
  (20 <= m_RIDAGEYR r < 80 ->
   exists choice,
     In choice (map fst age_bins)
     /\ age_filter_step choice [ r ] = Returned [ r ]
     /\ forall choice', In choice' (map fst age_bins) -> choice' <> choice ->
          age_filter_step choice' [ r ] = Returned [])
  /\ (m_RIDAGEYR r < 20 \/ 80 <= m_RIDAGEYR r ->
      (forall choice, In choice (map fst age_bins) ->
         age_filter_step choice [ r ] = Returned [])
      /\ age_filter_step "All Ages" [ r ] = Returned [ r ]).
Proof.
  split.
  - intros Hage.
    assert (Hdecade : m_RIDAGEYR r < 30 \/ 30 <= m_RIDAGEYR r < 40
                      \/ 40 <= m_RIDAGEYR r < 50 \/ 50 <= m_RIDAGEYR r < 60
                      \/ 60 <= m_RIDAGEYR r < 70 \/ 70 <= m_RIDAGEYR r) by lia.
    destruct Hdecade as [H|[H|[H|[H|[H|H]]]]].
    + only_bin r "20–30".
    + only_bin r "30–40".
    + only_bin r "40–50".
    + only_bin r "50–60".
    + only_bin r "60–70".
    + only_bin r "70–80".
  - intros Hout. split; [|reflexivity].
    intros c Hc. simpl in Hc.
    repeat (destruct Hc as [Hc|Hc]; [subst c; row_dropped r|]).
    contradiction.
Qed.

Lemma every_age_has_at_most_one_bin_witness :
  (exists choice,
      In choice (map fst age_bins)
      /\ age_filter_step choice [ aged 79 ] = Returned [ aged 79 ]
      /\ forall choice', In choice' (map fst age_bins) -> choice' <> choice ->
           age_filter_step choice' [ aged 79 ] = Returned [])
  /\ (forall choice, In choice (map fst age_bins) ->
        age_filter_step choice [ aged 80 ] = Returned []).
Proof.
  split.
  - apply (proj1 (every_age_has_at_most_one_bin (aged 79))). simpl. lia.
  - apply (proj2 (every_age_has_at_most_one_bin (aged 80))). simpl. lia.
Defined.

(** ** When the three outputs raise *)

Lemma merge_data_age_outcome (bm : BiomarkerTable) (lb : LabelTable) (x label : string) :
  merge_data_age bm lb x label =
  if has_column (bm_columns bm) x
  then if has_column (lb_columns lb) label
       then Returned (pd_merge SEQN id_client (mk_merged_age x label)
                        (bm_rows bm) (lb_rows lb))
       else Raised (KeyError_not_in_index [label])
  else Raised (KeyError_not_in_index [x]).
Proof.
  unfold merge_data_age. rewrite !require_columns_one.
  destruct (has_column (bm_columns bm) x); [|reflexivity].
  destruct (has_column (lb_columns lb) label); reflexivity.
Qed.

Lemma merge_data_outcome (bm : BiomarkerTable) (lb : LabelTable) (x label : string) :
  merge_data bm lb x label =
  if has_column (bm_columns bm) x
  then if has_column (lb_columns lb) label
       then Returned (pd_merge SEQN id_client (mk_merged x label)
                        (bm_rows bm) (lb_rows lb))
       else Raised (KeyError_not_in_index [label])
  else Raised (KeyError_not_in_index [x]).
Proof.
  unfold merge_data. rewrite !require_columns_one.
  destruct (has_column (bm_columns bm) x); [|reflexivity].
  destruct (has_column (lb_columns lb) label); reflexivity.
Qed.

Lemma has_column_false (cols : list string) (name : string) :
  ~ In name cols -> has_column cols name = false.
Proof.
  intros Hn. destruct (has_column cols name) eqn:E; [|reflexivity].
  apply has_column_In in E. contradiction.
Qed.

(** X10.  For a request whose column names are pairwise distinct,
    [kde_plot] raises the [KeyError] of pandas that names the biomarker
    when the biomarker is not a column; else the one that names the label
    when the label is not a column; else [KeyError] with the age entry (its
    dash turned into a hyphen) when that entry is not one the age step
    accepts; in every other case it goes through to its drawing calls. *)
Theorem kde_plot_outcomes (bm : BiomarkerTable) (lb : LabelTable) (input : Input) :
  let entry := replace "–" "-" (age_group_filter input) in
  distinct_columns [ biomarker_x input ] (heart_disease_label input) ->
  (~ In (biomarker_x input) (bm_columns bm) ->
   kde_plot bm lb input = Raised (KeyError_not_in_index [ biomarker_x input ]))
  /\ (In (biomarker_x input) (bm_columns bm) ->
      ~ In (heart_disease_label input) (lb_columns lb) ->
      kde_plot bm lb input = Raised (KeyError_not_in_index [ heart_disease_label input ]))
  /\ (In (biomarker_x input) (bm_columns bm) ->
      In (heart_disease_label input) (lb_columns lb) ->
      ~ In entry age_entries ->
      kde_plot bm lb input = Raised (KeyError entry))
  /\ (In (biomarker_x input) (bm_columns bm) ->
      In (heart_disease_label input) (lb_columns lb) ->
      In entry age_entries ->
      exists calls, kde_plot bm lb input = Returned calls).
Proof.
  intros entry _. unfold kde_plot, kde_age_cohort. rewrite merge_data_age_outcome.
  split; [|split; [|split]].
  - intros Hx. now rewrite (has_column_false _ _ Hx).
  - intros Hx Hl. rewrite (proj2 (has_column_In _ _) Hx).
    now rewrite (has_column_false _ _ Hl).
  - intros Hx Hl He.
    rewrite (proj2 (has_column_In _ _) Hx), (proj2 (has_column_In _ _) Hl). simpl.
    now rewrite (proj2 (age_step_accepts_its_entries_aux _ _) He).
  - intros Hx Hl He.
    rewrite (proj2 (has_column_In _ _) Hx), (proj2 (has_column_In _ _) Hl). simpl.
    destruct (proj1 (age_step_accepts_its_entries_aux (age_group_filter input)
                       (pd_merge SEQN id_client
                          (mk_merged_age (biomarker_x input) (heart_disease_label input))
                          (bm_rows bm) (lb_rows lb))) He)
      as [keep ->].
    simpl. destruct (is_empty _); eauto.
Qed.

Lemma kde_plot_outcomes_witness :
  kde_plot sample_biomarkers sample_labels
    {| biomarker_x := "Glucose"; heart_disease_label := "CHD";
       gender_filter := "All"; age_group_filter := "80+";
       filter_heart_disease := false |}
  = Raised (KeyError "80+")
  /\ kde_plot sample_biomarkers sample_labels
       {| biomarker_x := "Insulin"; heart_disease_label := "Stroke";
          gender_filter := "All"; age_group_filter := "80+";
          filter_heart_disease := false |}
     = Raised (KeyError_not_in_index [ "Insulin" ]).
Proof.
  split.
  - apply (proj1 (proj2 (proj2 (kde_plot_outcomes sample_biomarkers sample_labels
             {| biomarker_x := "Glucose"; heart_disease_label := "CHD";
                gender_filter := "All"; age_group_filter := "80+";
                filter_heart_disease := false |} ltac:(distinct_names))))).
    + simpl. tauto.
    + simpl. tauto.
    + simpl. intros [H|[H|[H|[H|[H|[H|[H|[]]]]]]]]; discriminate.
  - apply (proj1 (kde_plot_outcomes sample_biomarkers sample_labels
             {| biomarker_x := "Insulin"; heart_disease_label := "Stroke";
                gender_filter := "All"; age_group_filter := "80+";
                filter_heart_disease := false |} ltac:(distinct_names))).
    simpl. intros [H|[H|[]]]; discriminate.
Defined.

Lemma summary_cohort_outcome (bm : BiomarkerTable) (lb : LabelTable) (input : Input) :
  summary_cohort bm lb input =
  if has_column (bm_columns bm) (biomarker_x input)
  then if has_column (lb_columns lb) (heart_disease_label input)
       then Returned
              (gender_filter_step (fun r => r) (gender_filter input)
                 (disease_filter (fun r => r) (filter_heart_disease input)
                    (pd_merge SEQN id_client
                       (mk_merged (biomarker_x input) (heart_disease_label input))
                       (bm_rows bm) (lb_rows lb))))
       else Raised (KeyError_not_in_index [ heart_disease_label input ])
  else Raised (KeyError_not_in_index [ biomarker_x input ]).
Proof.
  unfold summary_cohort. rewrite merge_data_outcome.
  destruct (has_column (bm_columns bm) (biomarker_x input)); [|reflexivity].
  destruct (has_column (lb_columns lb) (heart_disease_label input)); reflexivity.
Qed.

Lemma summary_stats_raises (student_t_sf : npfloat -> R -> R)
    (bm : BiomarkerTable) (lb : LabelTable) (input : Input) (e : exn) :
  summary_cohort bm lb input = Raised e ->
  summary_stats student_t_sf bm lb input = Raised e.
Proof. unfold summary_stats. now intros ->. Qed.

(** X11.  For a request whose column names are pairwise distinct,
    [summary_stats] raises the [KeyError] of pandas that names the
    biomarker when the biomarker is not a column, else the one that names
    the label when the label is not a column, and returns its text in every
    other case: the age entry plays no part, so a request with an entry the
    age step would refuse, or with another age bin, gets the same text. *)
Theorem summary_stats_outcomes (student_t_sf : npfloat -> R -> R)
    (bm : BiomarkerTable) (lb : LabelTable) (input : Input) :
  distinct_columns [ biomarker_x input ] (heart_disease_label input) ->
  (~ In (biomarker_x input) (bm_columns bm) ->
   summary_stats student_t_sf bm lb input
   = Raised (KeyError_not_in_index [ biomarker_x input ]))
  /\ (In (biomarker_x input) (bm_columns bm) ->
      ~ In (heart_disease_label input) (lb_columns lb) ->
      summary_stats student_t_sf bm lb input
      = Raised (KeyError_not_in_index [ heart_disease_label input ]))
  /\ (In (biomarker_x input) (bm_columns bm) ->
      In (heart_disease_label input) (lb_columns lb) ->
      exists out,
        summary_stats student_t_sf bm lb input = Returned out
        /\ forall entry,
             summary_stats student_t_sf bm lb
               {| biomarker_x := biomarker_x input;
                  heart_disease_label := heart_disease_label input;
                  gender_filter := gender_filter input;
                  age_group_filter := entry;
                  filter_heart_disease := filter_heart_disease input |}
             = Returned out).
Proof.
  intros _. split; [|split].
  - intros Hx. apply summary_stats_raises. rewrite summary_cohort_outcome.
    now rewrite (has_column_false _ _ Hx).
  - intros Hx Hl. apply summary_stats_raises. rewrite summary_cohort_outcome.
    rewrite (proj2 (has_column_In _ _) Hx). now rewrite (has_column_false _ _ Hl).
  - intros Hx Hl.
    assert (Hc : forall entry,
               summary_cohort bm lb
                 {| biomarker_x := biomarker_x input;
                    heart_disease_label := heart_disease_label input;
                    gender_filter := gender_filter input;
                    age_group_filter := entry;
                    filter_heart_disease := filter_heart_disease input |}
               = summary_cohort bm lb input) by reflexivity.
    destruct (summary_cohort bm lb input) as [merged|e] eqn:E.
    + assert (Hs : forall input',
                 summary_cohort bm lb input' = Returned merged ->
                 summary_stats student_t_sf bm lb input'
                 = Returned (if is_empty merged then [ Line no_data_message ]
                             else (group_section merged "Disease"
                                   ++ group_section merged "No Disease")
                                  ++ [ comparison_item student_t_sf merged ])%list).
      { intros input' H. rewrite (summary_stats_eq _ _ _ _ _ H).
        now destruct (is_empty merged). }
      eexists. split; [now apply Hs|]. intros entry. apply Hs, Hc.
    + rewrite summary_cohort_outcome in E.
      rewrite (proj2 (has_column_In _ _) Hx), (proj2 (has_column_In _ _) Hl) in E.
      discriminate.
Qed.

Lemma summary_stats_outcomes_witness :
  exists out,
    summary_stats (fun _ _ => 0%R) sample_biomarkers scenario_labels
                  (all_ages_request "All" false) = Returned out
    /\ forall entry,
         summary_stats (fun _ _ => 0%R) sample_biomarkers scenario_labels
           {| biomarker_x := "Glucose"; heart_disease_label := "CHD";
              gender_filter := "All"; age_group_filter := entry;
              filter_heart_disease := false |}
         = Returned out.
Proof.
  apply (proj2 (proj2 (summary_stats_outcomes (fun _ _ => 0%R) sample_biomarkers
                         scenario_labels (all_ages_request "All" false)
                         ltac:(distinct_names))));
    simpl; tauto.
Defined.

Lemma require_columns_two (cols : list string) (x y : string) :
  x <> y ->
  require_columns cols [x; y]
  = match has_column cols x, has_column cols y with
    | true, true => Returned tt
    | false, true => Raised (KeyError_not_in_index [x])
    | true, false => Raised (KeyError_not_in_index [y])
    | false, false => Raised (KeyError_not_in_index [x; y])
    end.
Proof.
  intros Hne. unfold require_columns. simpl filter.
  destruct (has_column cols x), (has_column cols y); simpl; try reflexivity.
  destruct (string_dec y x) as [E|_]; [now destruct Hne|reflexivity].
Qed.

(** X12.  With two different biomarkers, and the column names of the
    request pairwise distinct, [regression_plot] raises the one [KeyError]
    of pandas that names every biomarker that is not a column (X before Y);
    else the one that names the label when the label is not a column; and
    whenever it returns, its first drawing call was [sns.lmplot] on exactly
    the matched pairs of rows that pass the disease and gender filters. *)
Theorem regression_plot_outcomes (bm : BiomarkerTable) (lb : LabelTable)
    (input : ShinyApp.Input) :
  let x := ShinyApp.biomarker_x input in
  let y := ShinyApp.biomarker_y input in
  let label := ShinyApp.heart_disease_label input in
  distinct_columns [ x; y ] label ->
  (~ In x (bm_columns bm) -> In y (bm_columns bm) ->
   ShinyApp.regression_plot bm lb input = Raised (KeyError_not_in_index [ x ]))
  /\ (In x (bm_columns bm) -> ~ In y (bm_columns bm) ->
      ShinyApp.regression_plot bm lb input = Raised (KeyError_not_in_index [ y ]))
  /\ (~ In x (bm_columns bm) -> ~ In y (bm_columns bm) ->
      ShinyApp.regression_plot bm lb input = Raised (KeyError_not_in_index [ x; y ]))
  /\ (In x (bm_columns bm) -> In y (bm_columns bm) -> ~ In label (lb_columns lb) ->
      ShinyApp.regression_plot bm lb input = Raised (KeyError_not_in_index [ label ]))
  /\ (forall calls,
         ShinyApp.regression_plot bm lb input = Returned calls ->
         exists data rest,
           calls = sns_lmplot data :: rest
           /\ forall r, In r data <->
                (exists b l, In b (bm_rows bm) /\ In l (lb_rows lb)
                             /\ id_client l = SEQN b /\ r = mk_merged_xy x y label b l)
                /\ disease_keeps (ShinyApp.filter_heart_disease input) (xy_row r) = true
                /\ gender_keeps (ShinyApp.gender_filter input) (xy_row r) = true).
Proof.
  intros x y label Hd.
  assert (Hne : x <> y).
  { unfold distinct_columns in Hd.
    do 5 (apply NoDup_cons_iff in Hd; destruct Hd as [_ Hd]).
    apply NoDup_cons_iff in Hd. destruct Hd as [Hx _].
    intros E. apply Hx. left. now symmetry. }
  unfold ShinyApp.regression_plot.
  destruct (string_dec _ _) as [E|_]; [contradiction|].
  unfold merge_data_xy. fold x y label.
  rewrite (require_columns_two _ _ _ Hne), require_columns_one.
  split; [|split; [|split; [|split]]].
  - intros Hx Hy. rewrite (has_column_false _ _ Hx).
    now rewrite (proj2 (has_column_In _ _) Hy).
  - intros Hx Hy. rewrite (proj2 (has_column_In _ _) Hx).
    now rewrite (has_column_false _ _ Hy).
  - intros Hx Hy. now rewrite (has_column_false _ _ Hx), (has_column_false _ _ Hy).
  - intros Hx Hy Hl.
    rewrite (proj2 (has_column_In _ _) Hx), (proj2 (has_column_In _ _) Hy).
    now rewrite (has_column_false _ _ Hl).
  - intros calls.
    destruct (has_column (bm_columns bm) x), (has_column (bm_columns bm) y);
      simpl; try discriminate.
    destruct (has_column (lb_columns lb) label); simpl; [|discriminate].
    intros [= <-]. eexists. eexists. split; [reflexivity|].
    intros r. rewrite gender_filter_selects, disease_filter_selects, filter_twice.
    rewrite filter_In, andb_true_iff, pd_merge_In. tauto.
Qed.

Lemma regression_plot_outcomes_witness :
  ShinyApp.regression_plot sample_biomarkers scenario_labels
    {| ShinyApp.biomarker_x := "Glucose"; ShinyApp.biomarker_y := "Insulin";
       ShinyApp.heart_disease_label := "CHD"; ShinyApp.gender_filter := "All";
       ShinyApp.filter_heart_disease := false |}
  = Raised (KeyError_not_in_index [ "Insulin" ]).
Proof.
  apply (proj1 (proj2 (regression_plot_outcomes sample_biomarkers scenario_labels
           {| ShinyApp.biomarker_x := "Glucose"; ShinyApp.biomarker_y := "Insulin";
              ShinyApp.heart_disease_label := "CHD"; ShinyApp.gender_filter := "All";
              ShinyApp.filter_heart_disease := false |}
           ltac:(distinct_names)))).
  - simpl. tauto.
  - simpl. intros [H|[H|[]]]; discriminate.
Defined.

(** ** The disease filter and the comparison *)

Lemma label_is_no_disease (r : MergedRow) :
  HeartDisease r = 1 -> label_is "No Disease" r = false.
Proof. unfold label_is, map_heart_disease. now intros ->. Qed.

Lemma group_data_nil_when_no_row (merged_data : list MergedRow) (group : string) :
  (forall r, In r merged_data -> label_is group r = false) ->
  group_data merged_data group = [].
Proof.
  intros H. unfold group_data.
  rewrite (filter_ext_in (label_is group) (fun _ => false)) by exact H.
  now rewrite filter_false.
Qed.

(** X13.  With the disease box ticked, every row of the cohort has the
    disease: [summary_stats] finds no "No Disease" value, so its text
    never holds a test section, and the "No Disease" density of [kde_plot]
    is called on an empty series. *)
Theorem disease_filter_leaves_nothing_to_compare (student_t_sf : npfloat -> R -> R)
    (bm : BiomarkerTable) (lb : LabelTable) (input : Input) :
  filter_heart_disease input = true ->
  (forall merged_data out,
      summary_cohort bm lb input = Returned merged_data ->
      summary_stats student_t_sf bm lb input = Returned out ->
      group_data merged_data "No Disease" = []
      /\ forall p d, ~ In (TestSection p d) out)
  /\ (forall calls,
         kde_plot bm lb input = Returned calls ->
         calls = no_data_drawing \/ In (sns_kdeplot [] "No Disease") calls).
Proof.
  intros Hb. split.
  - intros merged_data out Hc Hs.
    assert (Hnd : group_data merged_data "No Disease" = []).
    { apply group_data_nil_when_no_row. intros r Hr. apply label_is_no_disease.
      rewrite summary_cohort_outcome in Hc.
      destruct (has_column _ _); [|discriminate].
      destruct (has_column _ _); [|discriminate].
      injection Hc as <-. rewrite Hb in Hr.
      rewrite gender_filter_selects, disease_filter_selects, filter_twice in Hr.
      apply filter_In in Hr as [_ Hr]. apply andb_true_iff in Hr as [Hr _].
      unfold disease_keeps in Hr. simpl in Hr. now apply Z.eqb_eq. }
    split; [exact Hnd|]. intros p d Hin.
    rewrite (summary_stats_eq _ _ _ _ _ Hc) in Hs.
    destruct (is_empty merged_data).
    + injection Hs as <-. destruct Hin as [H|[]]. discriminate.
    + injection Hs as <-. apply comparison_in_output in Hin; [|discriminate].
      unfold comparison_item in Hin. rewrite Hnd in Hin. simpl in Hin.
      rewrite andb_false_r in Hin. discriminate.
  - intros calls Hk.
    destruct (kde_age_cohort bm lb input) as [cohort|e] eqn:E.
    + rewrite (kde_plot_after_age _ _ _ _ E) in Hk.
      destruct (is_empty cohort); injection Hk as <-; [now left|]. right.
      unfold density_drawing, kde_curves. simpl. right. right. left. f_equal.
      rewrite (filter_ext_in _ (fun _ => false)); [now rewrite filter_false|].
      intros r Hr. rewrite kde_filters_select in Hr.
      apply filter_In in Hr as [_ Hr]. apply andb_true_iff in Hr as [Hr _].
      unfold disease_keeps in Hr. rewrite Hb in Hr. simpl in Hr.
      apply Z.eqb_eq in Hr. now rewrite Hr.
    + unfold kde_plot in Hk. rewrite E in Hk. discriminate.
Qed.

Lemma disease_filter_leaves_nothing_to_compare_witness :
  exists calls,
    kde_plot sample_biomarkers scenario_labels (all_ages_request "All" true)
    = Returned calls
    /\ (calls = no_data_drawing \/ In (sns_kdeplot [] "No Disease") calls).
Proof.
  eexists. split; [reflexivity|].
  apply (proj2 (disease_filter_leaves_nothing_to_compare (fun _ _ => 0%R)
                  sample_biomarkers scenario_labels (all_ages_request "All" true)
                  eq_refl)).
  reflexivity.
Defined.

(** ** One cohort when no age bin is selected *)

Lemma map_row_disease_filter (b : bool) (cohort : list MergedRowAge) :
  map row (disease_filter row b cohort) = disease_filter (fun r => r) b (map row cohort).
Proof.
  unfold disease_filter. destruct b; [|reflexivity].
  now rewrite filter_map_swap.
Qed.

Lemma map_row_gender_filter (g : string) (cohort : list MergedRowAge) :
  map row (gender_filter_step row g cohort)
  = gender_filter_step (fun r => r) g (map row cohort).
Proof.
  unfold gender_filter_step.
  destruct (string_dec g "Male"); [now rewrite filter_map_swap|].
  destruct (string_dec g "Female"); [now rewrite filter_map_swap | reflexivity].
Qed.

Lemma map_row_merge (x label : string) (left : list BiomarkerRow) (right : list LabelRow) :
  map row (pd_merge SEQN id_client (mk_merged_age x label) left right)
  = pd_merge SEQN id_client (mk_merged x label) left right.
Proof. now rewrite pd_merge_map. Qed.

(** X14.  Under "All Ages" the densities and the statistics are computed
    on the same cohort: the rows [kde_plot] keeps, without their age, are
    the rows [summary_stats] keeps, in the same order.  Under an age bin
    the rows of the densities are rows of the statistics. *)
Theorem same_cohort_under_all_ages (bm : BiomarkerTable) (lb : LabelTable)
    (input : Input) :
  (age_group_filter input = "All Ages" ->
   (cohort <- kde_age_cohort bm lb input ;;
    Returned (map row (kde_filters input cohort)))
   = summary_cohort bm lb input)
  /\ (forall cohort,
         kde_age_cohort bm lb input = Returned cohort ->
         exists merged_data,
           summary_cohort bm lb input = Returned merged_data
           /\ incl (map row (kde_filters input cohort)) merged_data).
Proof.
  split.
  - intros Hall. rewrite (kde_age_cohort_all_ages _ _ _ Hall).
    rewrite merge_data_age_outcome, summary_cohort_outcome.
    destruct (has_column _ _); [|reflexivity].
    destruct (has_column _ _); [|reflexivity].
    simpl. unfold kde_filters.
    now rewrite map_row_gender_filter, map_row_disease_filter, map_row_merge.
  - intros cohort Hc. unfold kde_age_cohort in Hc.
    rewrite merge_data_age_outcome in Hc. rewrite summary_cohort_outcome.
    destruct (has_column _ _); [|discriminate].
    destruct (has_column _ _); [|discriminate].
    simpl in Hc. eexists. split; [reflexivity|].
    assert (Hsub : incl cohort
                     (pd_merge SEQN id_client
                        (mk_merged_age (biomarker_x input) (heart_disease_label input))
                        (bm_rows bm) (lb_rows lb))).
    { unfold age_filter_step in Hc.
      destruct (string_dec _ "All Ages"); [injection Hc as <-; apply incl_refl|].
      destruct (dict_get age_bounds _) as [[low high]|e]; [|discriminate].
      simpl in Hc. injection Hc as <-. apply incl_filter. }
    intros r Hr. apply in_map_iff in Hr as (ra & <- & Hra).
    rewrite kde_filters_select in Hra. apply filter_In in Hra as [Hra Hkeep].
    rewrite gender_filter_selects, disease_filter_selects, filter_twice.
    apply filter_In. split; [|exact Hkeep].
    rewrite <- map_row_merge. apply in_map. now apply Hsub.
Qed.

Lemma same_cohort_under_all_ages_witness :
  (cohort <- kde_age_cohort sample_biomarkers scenario_labels
               (all_ages_request "Female" false) ;;
   Returned (map row (kde_filters (all_ages_request "Female" false) cohort)))
  = summary_cohort sample_biomarkers scenario_labels (all_ages_request "Female" false).
Proof.
  apply (proj1 (same_cohort_under_all_ages sample_biomarkers scenario_labels
                  (all_ages_request "Female" false))).
  reflexivity.
Defined.

(** ** The reported statistics *)

Lemma insert_sorted_perm (v : R) (xs : list R) :
  Permutation (insert_sorted v xs) (v :: xs).
Proof.
  induction xs as [|x xs IH]; simpl; [reflexivity|].
  destruct (Rle_dec v x); [reflexivity|].
  rewrite IH. apply perm_swap.
Qed.

Lemma sort_values_perm (xs : list R) : Permutation (sort_values xs) xs.
Proof.
  induction xs as [|x xs IH]; simpl; [reflexivity|].
  rewrite insert_sorted_perm. now constructor.
Qed.

Lemma nth_sorted_in (xs : list R) (k : nat) :
  (k < List.length xs)%nat -> In (nth k (sort_values xs) 0%R) xs.
Proof.
  intros Hk. apply (Permutation_in _ (sort_values_perm xs)).
  apply nth_In. now rewrite (Permutation_length (sort_values_perm xs)).
Qed.

Lemma Rmin_list_le (xs : list R) (x : R) :
  (Rmin_list x xs <= x)%R /\ forall v, In v xs -> (Rmin_list x xs <= v)%R.
Proof.
  unfold Rmin_list. revert x. induction xs as [|y ys IH]; simpl; intros x.
  - split; [lra | tauto].
  - destruct (IH (Rmin x y)) as [H1 H2].
    pose proof (Rmin_l x y). pose proof (Rmin_r x y).
    split; [lra|]. intros v [<-|Hv]; [lra | auto].
Qed.

Lemma Rmax_list_ge (xs : list R) (x : R) :
  (x <= Rmax_list x xs)%R /\ forall v, In v xs -> (v <= Rmax_list x xs)%R.
Proof.
  unfold Rmax_list. revert x. induction xs as [|y ys IH]; simpl; intros x.
  - split; [lra | tauto].
  - destruct (IH (Rmax x y)) as [H1 H2].
    pose proof (Rmax_l x y). pose proof (Rmax_r x y).
    split; [lra|]. intros v [<-|Hv]; [lra | auto].
Qed.

Lemma Rmin_list_In (xs : list R) (x : R) : In (Rmin_list x xs) (x :: xs).
Proof.
  unfold Rmin_list. revert x. induction xs as [|y ys IH]; simpl; intros x.
  - now left.
  - destruct (IH (Rmin x y)) as [E|Hin]; [|tauto].
    rewrite <- E. unfold Rmin. destruct (Rle_dec x y); tauto.
Qed.

Lemma Rmax_list_In (xs : list R) (x : R) : In (Rmax_list x xs) (x :: xs).
Proof.
  unfold Rmax_list. revert x. induction xs as [|y ys IH]; simpl; intros x.
  - now left.
  - destruct (IH (Rmax x y)) as [E|Hin]; [|tauto].
    rewrite <- E. unfold Rmax. destruct (Rle_dec x y); tauto.
Qed.

(** X16.  For a group with at least one value, the section of
    [summary_stats] reports as Min and Max two values of the group that
    bound every value of the group, and as Count the number of its values;
    when that number is odd, the Median it reports is a value of the group
    too. *)
Theorem min_max_count_of_a_group (x : R) (xs : list R) :
  exists mn mx,
    dict_get (stats_dict (x :: xs)) "Min" = Returned (Fin mn)
    /\ dict_get (stats_dict (x :: xs)) "Max" = Returned (Fin mx)
    /\ dict_get (stats_dict (x :: xs)) "Count"
       = Returned (Fin (INR (S (List.length xs))))
    /\ In mn (x :: xs)
    /\ In mx (x :: xs)
    /\ (forall v, In v (x :: xs) -> mn <= v <= mx)%R
    /\ (Nat.odd (S (List.length xs)) = true ->
        exists med,
          dict_get (stats_dict (x :: xs)) "Median" = Returned (Fin med)
          /\ In med (x :: xs)).
Proof.
  exists (Rmin_list x xs), (Rmax_list x xs).
  split; [reflexivity|]. split; [reflexivity|]. split; [reflexivity|].
  split; [apply Rmin_list_In|]. split; [apply Rmax_list_In|]. split.
  - intros v [<-|Hv].
    + split; [apply (proj1 (Rmin_list_le xs x)) | apply (proj1 (Rmax_list_ge xs x))].
    + split; [now apply (proj2 (Rmin_list_le xs x))
             | now apply (proj2 (Rmax_list_ge xs x))].
  - intros Hodd. unfold stats_dict. simpl dict_get. unfold np_median.
    change (List.length (x :: xs)) with (S (List.length xs)). rewrite Hodd.
    eexists. split; [reflexivity|].
    apply nth_sorted_in. apply Nat.div_lt; simpl; lia.
Qed.

(** ** Swapping the two groups *)

Lemma np_add_comm (a b : npfloat) : np_add a b = np_add b a.
Proof. destruct a, b; simpl; try reflexivity. f_equal. lra. Qed.

Lemma np_sub_swap (a b : npfloat) : np_sub b a = np_neg (np_sub a b).
Proof. destruct a, b; simpl; try reflexivity. f_equal. lra. Qed.

Lemma signed_inf_neg (x : R) :
  signed_inf true (- x) = np_neg (signed_inf true x).
Proof.
  unfold signed_inf.
  destruct (Req_dec_T (- x) 0), (Req_dec_T x 0); try lra; [reflexivity|].
  destruct (Rlt_dec 0 (- x)), (Rlt_dec 0 x); try lra; reflexivity.
Qed.

Lemma np_div_neg_l (a d : npfloat) : np_div (np_neg a) d = np_neg (np_div a d).
Proof.
  destruct a as [x| | |], d as [y| | |]; simpl; try reflexivity.
  - destruct (Req_dec_T y 0) as [E|N]; [apply signed_inf_neg|].
    simpl. f_equal. field. exact N.
  - f_equal. lra.
  - f_equal. lra.
  - now destruct (Rlt_dec y 0).
  - now destruct (Rlt_dec y 0).
Qed.

Lemma pooled_std_swap (x1 x2 : list R) : pooled_std x2 x1 = pooled_std x1 x2.
Proof.
  unfold pooled_std. rewrite np_add_comm. do 3 f_equal. lia.
Qed.

Lemma two_sided_p_value_neg (student_t_sf : npfloat -> R -> R) (df t : npfloat) :
  two_sided_p_value student_t_sf df (np_neg t) = two_sided_p_value student_t_sf df t.
Proof. destruct t; simpl; try reflexivity. now rewrite Rabs_Ropp. Qed.

(** X19.  Swapping the two groups changes the sign of Cohen's d and of the
    t statistic and leaves the p-value and the pooled standard deviation as
    they are (a NaN stays a NaN). *)
Theorem swapping_groups_flips_sign (student_t_sf : npfloat -> R -> R)
    (x1 x2 : list R) :
  cohen_d x2 x1 = np_neg (cohen_d x1 x2)
  /\ pooled_std x2 x1 = pooled_std x1 x2
  /\ fst (ttest_ind student_t_sf x2 x1) = np_neg (fst (ttest_ind student_t_sf x1 x2))
  /\ snd (ttest_ind student_t_sf x2 x1) = snd (ttest_ind student_t_sf x1 x2).
Proof.
  split; [|split; [apply pooled_std_swap|]].
  - unfold cohen_d. rewrite pooled_std_swap.
    destruct (np_gt0 (pooled_std x1 x2)); [|reflexivity].
    now rewrite np_sub_swap, np_div_neg_l.
  - unfold ttest_ind. cbv zeta. simpl fst. simpl snd.
    rewrite (np_add_comm (np_div (np_var 1 x2) _) (np_div (np_var 1 x1) _)).
    rewrite (np_add_comm (np_div (np_mul (np_div (np_var 1 x2) _) _) _)
                         (np_div (np_mul (np_div (np_var 1 x1) _) _) _)).
    rewrite np_sub_swap, np_div_neg_l. split; [reflexivity|].
    apply two_sided_p_value_neg.
Qed.
